(** * Aviator predictor: the prediction rules and the input validation

    A shallow embedding of the TypeScript sources (the single-file build of
    the application, with [types.ts], [constants.ts],
    [services/predictionService.ts] and [App.tsx] inlined) and the
    properties of [analyzeHistory] and [validateAndParseInput].

    JavaScript numbers are IEEE 754 binary64 values: they are modelled by
    Rocq's primitive floats, so NaN, the infinities and the two zeros are
    part of every quantification over numbers.  JavaScript strings are
    sequences of UTF-16 code units: they are modelled by lists of code
    units. *)

From Stdlib Require Import String Ascii DecimalString.
From Stdlib Require Import Floats ZArith NArith List Bool Lia Permutation.
Import ListNotations.

Set Warnings "-inexact-float".

(** ** The fragment of the JavaScript library used by the program *)

Module JS.

(** *** Numbers *)

Definition number := float.

(** The relational operators on numbers.  Every comparison with NaN is
    false; [===] identifies [+0] and [-0]. *)
Definition lt (a b : number) : bool := (a <? b)%float.
Definition gt (a b : number) : bool := (b <? a)%float.
Definition le (a b : number) : bool := (a <=? b)%float.
Definition ge (a b : number) : bool := (b <=? a)%float.
Definition strictEq (a b : number) : bool := (a =? b)%float.
Definition isNaN (a : number) : bool := is_nan a.

Arguments lt (a b)%_float.
Arguments gt (a b)%_float.
Arguments le (a b)%_float.
Arguments ge (a b)%_float.
Arguments strictEq (a b)%_float.

(** *** Strings *)

Definition codeUnit := N.
Definition jsstring := list codeUnit.

Definition codeUnit_of_ascii (c : Ascii.ascii) : codeUnit := Ascii.N_of_ascii c.

(** An ASCII literal as a JavaScript string. *)
Definition str (s : String.string) : jsstring :=
  map codeUnit_of_ascii (String.list_ascii_of_string s).

(** [WhiteSpace] and [LineTerminator] code points of ECMAScript (all of them
    lie in the basic plane): TAB, LF, VT, FF, CR, SP, NBSP, the [Zs]
    category, LS, PS and the BOM. *)
Definition isWhiteSpace (c : codeUnit) : bool :=
  ((9 <=? c) && (c <=? 13) || (c =? 32) || (c =? 160) || (c =? 5760)
   || (8192 <=? c) && (c <=? 8202) || (c =? 8232) || (c =? 8233)
   || (c =? 8239) || (c =? 8287) || (c =? 12288) || (c =? 65279))%N.

Fixpoint dropWhile {A} (p : A -> bool) (l : list A) : list A :=
  match l with
  | [] => []
  | x :: l' => if p x then dropWhile p l' else l
  end.

Fixpoint takeWhile {A} (p : A -> bool) (l : list A) : list A :=
  match l with
  | [] => []
  | x :: l' => if p x then x :: takeWhile p l' else []
  end.

Definition trimStart (s : jsstring) : jsstring := dropWhile isWhiteSpace s.
Definition trimEnd (s : jsstring) : jsstring := rev (dropWhile isWhiteSpace (rev s)).

(** [String.prototype.trim] *)
Definition trim (s : jsstring) : jsstring := trimEnd (trimStart s).

(** [String.prototype.split] with a separator of one code unit: the
    substrings between the occurrences of the separator, a string without
    separator (the empty one too) giving one piece. *)
Fixpoint split (sep : codeUnit) (s : jsstring) : list jsstring :=
  match s with
  | [] => [[]]
  | c :: s' =>
      if (c =? sep)%N then [] :: split sep s'
      else match split sep s' with
           | [] => [[c]]
           | p :: ps => (c :: p) :: ps
           end
  end.

Definition isEmpty (s : jsstring) : bool :=
  match s with [] => true | _ => false end.

(** *** [parseFloat] *)

Definition isDigit (c : codeUnit) : bool := ((48 <=? c) && (c <=? 57))%N.

(** The mathematical value of a run of decimal digits. *)
Definition digitsValue (ds : jsstring) : Z :=
  fold_left (fun acc c => (10 * acc + (Z.of_N c - 48))%Z) ds 0%Z.

Fixpoint startsWith (p s : jsstring) : bool :=
  match p, s with
  | [], _ => true
  | _ :: _, [] => false
  | a :: p', b :: s' => (a =? b)%N && startsWith p' s'
  end.

(** The Number value for the rational [n / d]: binary64, round to nearest,
    ties to even, overflow to infinity, underflow through the subnormals
    to zero. *)
Definition numberOfRatio (neg : bool) (n d : Z) : number :=
  match n with
  | Z0 => if neg then neg_zero else zero
  | _ =>
      let '(q, e, l) := SFdiv_core_binary prec emax n 0 d 0 in
      SF2Prim (binary_round_aux prec emax neg q e l)
  end.

(** The Number value for [m * 10 ^ e], [0 <= m]. *)
Definition numberOfDecimal (neg : bool) (m e : Z) : number :=
  if (0 <=? e)%Z then numberOfRatio neg (m * 10 ^ e) 1
  else numberOfRatio neg m (10 ^ (- e)).

(** [ExponentPart]: [e] or [E], an optional sign and at least one digit;
    when the digits are missing the exponent part is not in the longest
    prefix that is a [StrDecimalLiteral], and counts for nothing. *)
Definition exponentPart (s : jsstring) : Z :=
  match s with
  | c :: r =>
      if ((c =? 101) || (c =? 69))%N then
        let '(eneg, r') :=
          match r with
          | 43%N :: r' => (false, r')
          | 45%N :: r' => (true, r')
          | _ => (false, r)
          end in
        let ds := takeWhile isDigit r' in
        if eneg then (- digitsValue ds)%Z else digitsValue ds
      else 0%Z
  | [] => 0%Z
  end.

(** [parseFloat]: leading white space is skipped, the longest prefix that
    is a [StrDecimalLiteral] is read (an optional sign, then [Infinity], or
    digits with an optional fraction and exponent), whatever follows is
    ignored, and NaN is the result when there is no such prefix.  The
    value read is rounded exactly, as the engines do (the standard lets an
    implementation round a literal of more than twenty significant digits
    after cutting it to twenty). *)
Definition parseFloat (s : jsstring) : number :=
  let t := trimStart s in
  let '(neg, u) :=
    match t with
    | 43%N :: r => (false, r)
    | 45%N :: r => (true, r)
    | _ => (false, t)
    end in
  if startsWith (str "Infinity"%string) u then
    if neg then neg_infinity else infinity
  else
    let ip := takeWhile isDigit u in
    let r1 := dropWhile isDigit u in
    let '(fp, r2) :=
      match r1 with
      | 46%N :: r => (takeWhile isDigit r, dropWhile isDigit r)
      | _ => ([], r1)
      end in
    if isEmpty ip && isEmpty fp then nan
    else
      numberOfDecimal neg (digitsValue (ip ++ fp))
        (exponentPart r2 - Z.of_nat (length fp)).

(** *** Arrays *)

(** [Array.prototype.slice] with its [start] argument only: a negative
    [start] counts from the end, and both ends are clamped. *)
Definition slice {A} (start : Z) (l : list A) : list A :=
  let len := Z.of_nat (length l) in
  let k := if (start <? 0)%Z then Z.max (len + start) 0 else Z.min start len in
  skipn (Z.to_nat k) l.

(** [a[i]] where the elements are numbers: reading outside the array gives
    [undefined], which every numeric comparison turns into NaN. *)
Definition index (l : list number) (i : Z) : number :=
  if (i <? 0)%Z then nan else nth (Z.to_nat i) l nan.

End JS.

Import JS.

(** ** types.ts *)

Inductive PredictionCategory := BREAKOUT | COOLDOWN | STABLE | LOW | NONE.

Record PredictionResult := {
  category : PredictionCategory;
  range : jsstring;
  label : jsstring;
  colorClass : jsstring;
  textColorClass : jsstring;
  borderColorClass : jsstring
}.

(** ** constants.ts *)

(** The three counts are compared with array lengths, the three
    thresholds with multipliers. *)
Record PredictionRules := {
  BREAKOUT_THRESHOLD_COUNT_LT_2X : nat;
  BREAKOUT_THRESHOLD_COUNT_LTE_1_2X : nat;
  COOLDOWN_THRESHOLD_GT_5X : number;
  STABLE_LOWER_BOUND : number;
  STABLE_UPPER_BOUND : number;
  STABLE_HISTORY_COUNT : nat
}.

Definition PREDICTION_RULES : PredictionRules := {|
  BREAKOUT_THRESHOLD_COUNT_LT_2X := 5;
  BREAKOUT_THRESHOLD_COUNT_LTE_1_2X := 2;
  COOLDOWN_THRESHOLD_GT_5X := 5%float;
  STABLE_LOWER_BOUND := 2%float;
  STABLE_UPPER_BOUND := 4%float;
  STABLE_HISTORY_COUNT := 3
|}.

Definition DEFAULT_HISTORY_LENGTH : nat := 6.

(** [Omit<PredictionResult, 'category'>] *)
Record PredictionDetails := {
  details_range : jsstring;
  details_label : jsstring;
  details_colorClass : jsstring;
  details_textColorClass : jsstring;
  details_borderColorClass : jsstring
}.

(** U+2013, the dash of the range labels. *)
Definition enDash : jsstring := [8211%N].

Definition PREDICTION_DETAILS (c : PredictionCategory) : PredictionDetails :=
  match c with
  | BREAKOUT => {|
      details_range := str "3.00x " ++ enDash ++ str " 8.00x";
      details_label := str "Breakout Likely!";
      details_colorClass := str "bg-green-800/40";
      details_textColorClass := str "text-green-300";
      details_borderColorClass := str "border-green-500" |}
  | COOLDOWN => {|
      details_range := str "1.10x " ++ enDash ++ str " 2.00x";
      details_label := str "Cooldown Period";
      details_colorClass := str "bg-red-800/40";
      details_textColorClass := str "text-red-300";
      details_borderColorClass := str "border-red-500" |}
  | STABLE => {|
      details_range := str "2.00x " ++ enDash ++ str " 4.00x";
      details_label := str "Stable Pattern";
      details_colorClass := str "bg-blue-800/40";
      details_textColorClass := str "text-blue-300";
      details_borderColorClass := str "border-blue-500" |}
  | LOW => {|
      details_range := str "1.10x " ++ enDash ++ str " 1.80x";
      details_label := str "Low Multiplier Expected";
      details_colorClass := str "bg-yellow-800/40";
      details_textColorClass := str "text-yellow-300";
      details_borderColorClass := str "border-yellow-500" |}
  | NONE => {|
      details_range := str "N/A";
      details_label := str "Enter history to predict";
      details_colorClass := str "bg-slate-700";
      details_textColorClass := str "text-slate-300";
      details_borderColorClass := str "border-slate-600" |}
  end.

(** ** services/predictionService.ts *)

(** The object literal [{ category: c, ...d }]. *)
Definition withCategory (c : PredictionCategory) (d : PredictionDetails)
  : PredictionResult := {|
  category := c;
  range := details_range d;
  label := details_label d;
  colorClass := details_colorClass d;
  textColorClass := details_textColorClass d;
  borderColorClass := details_borderColorClass d
|}.

(** A rule block either returns from the function or falls through to the
    statements after it. *)
Notation "'returns' r" := (Some r) (at level 10, only parsing).
Notation "'fallsThrough'" := None (only parsing).

Definition analyzeHistory (history : list number) : PredictionResult :=
  let currentHistoryLength := length history in
  if currentHistoryLength <? 2 then
    withCategory LOW (PREDICTION_DETAILS LOW)
  else
  let lastValue := index history (Z.of_nat (length history) - 1) in
  if gt lastValue (COOLDOWN_THRESHOLD_GT_5X PREDICTION_RULES) then
    withCategory COOLDOWN (PREDICTION_DETAILS COOLDOWN)
  else
  match
    (if BREAKOUT_THRESHOLD_COUNT_LT_2X PREDICTION_RULES <=? currentHistoryLength then
       let countLessThan2x := length (filter (fun val => lt val 2) history) in
       let countLessThanOrEqualTo1_20x :=
         length (filter (fun val => le val 1.20) history) in
       if (BREAKOUT_THRESHOLD_COUNT_LT_2X PREDICTION_RULES <=? countLessThan2x)
          && (BREAKOUT_THRESHOLD_COUNT_LTE_1_2X PREDICTION_RULES
              <=? countLessThanOrEqualTo1_20x)
       then returns (withCategory BREAKOUT (PREDICTION_DETAILS BREAKOUT))
       else fallsThrough
     else fallsThrough)
  with
  | Some result => result
  | None =>
  match
    (if STABLE_HISTORY_COUNT PREDICTION_RULES <=? currentHistoryLength then
       let lastNValuesForStableRule :=
         slice (- Z.of_nat (STABLE_HISTORY_COUNT PREDICTION_RULES)) history in
       if length lastNValuesForStableRule =? STABLE_HISTORY_COUNT PREDICTION_RULES then
         let areLastNStable :=
           forallb (fun val => ge val (STABLE_LOWER_BOUND PREDICTION_RULES)
                               && le val (STABLE_UPPER_BOUND PREDICTION_RULES))
                   lastNValuesForStableRule in
         if areLastNStable
         then returns (withCategory STABLE (PREDICTION_DETAILS STABLE))
         else fallsThrough
       else fallsThrough
     else fallsThrough)
  with
  | Some result => result
  | None => withCategory LOW (PREDICTION_DETAILS LOW)
  end
  end.

(** ** App.tsx *)

(** The state variables of the [App] component. *)
Record AppState := {
  historyInput : jsstring;
  prediction : option PredictionResult;
  error : option jsstring;
  isLoading : bool;
  selectedHistoryLength : nat;
  showFeedbackOptions : bool;
  lastPredictionForFeedback : option PredictionResult;
  feedbackMessage : option jsstring
}.

(** Event handlers are computations over the state variables.  Every call
    of a setter of the program stores a value that does not depend on the
    state, so that the state React commits after a handler is the one
    obtained by running its setters in order. *)
Definition M (A : Type) : Type := AppState -> A * AppState.

Definition ret {A} (a : A) : M A := fun st => (a, st).
Definition bind {A B} (c : M A) (k : A -> M B) : M B :=
  fun st => let (a, st') := c st in k a st'.

Notation "x <- c ;; k" := (bind c (fun x => k))
  (at level 61, c at next level, right associativity).
Notation "c ;; k" := (bind c (fun _ => k))
  (at level 61, right associativity).

Definition setPrediction (v : option PredictionResult) : M unit := fun st =>
  (tt, {| historyInput := historyInput st; prediction := v; error := error st;
          isLoading := isLoading st;
          selectedHistoryLength := selectedHistoryLength st;
          showFeedbackOptions := showFeedbackOptions st;
          lastPredictionForFeedback := lastPredictionForFeedback st;
          feedbackMessage := feedbackMessage st |}).

Definition setError (v : option jsstring) : M unit := fun st =>
  (tt, {| historyInput := historyInput st; prediction := prediction st; error := v;
          isLoading := isLoading st;
          selectedHistoryLength := selectedHistoryLength st;
          showFeedbackOptions := showFeedbackOptions st;
          lastPredictionForFeedback := lastPredictionForFeedback st;
          feedbackMessage := feedbackMessage st |}).

Definition setIsLoading (v : bool) : M unit := fun st =>
  (tt, {| historyInput := historyInput st; prediction := prediction st;
          error := error st; isLoading := v;
          selectedHistoryLength := selectedHistoryLength st;
          showFeedbackOptions := showFeedbackOptions st;
          lastPredictionForFeedback := lastPredictionForFeedback st;
          feedbackMessage := feedbackMessage st |}).

Definition setShowFeedbackOptions (v : bool) : M unit := fun st =>
  (tt, {| historyInput := historyInput st; prediction := prediction st;
          error := error st; isLoading := isLoading st;
          selectedHistoryLength := selectedHistoryLength st;
          showFeedbackOptions := v;
          lastPredictionForFeedback := lastPredictionForFeedback st;
          feedbackMessage := feedbackMessage st |}).

Definition setLastPredictionForFeedback (v : option PredictionResult) : M unit :=
  fun st =>
  (tt, {| historyInput := historyInput st; prediction := prediction st;
          error := error st; isLoading := isLoading st;
          selectedHistoryLength := selectedHistoryLength st;
          showFeedbackOptions := showFeedbackOptions st;
          lastPredictionForFeedback := v;
          feedbackMessage := feedbackMessage st |}).

Definition setFeedbackMessage (v : option jsstring) : M unit := fun st =>
  (tt, {| historyInput := historyInput st; prediction := prediction st;
          error := error st; isLoading := isLoading st;
          selectedHistoryLength := selectedHistoryLength st;
          showFeedbackOptions := showFeedbackOptions st;
          lastPredictionForFeedback := lastPredictionForFeedback st;
          feedbackMessage := v |}).

(** The template literal [`${n}`] for a natural number. *)
Definition decimal (n : nat) : jsstring :=
  str (NilEmpty.string_of_uint (Nat.to_uint n)).

(** The four messages of [validateAndParseInput]. *)
Definition wrongCountMessage (n : nat) : jsstring :=
  str "Please enter exactly " ++ decimal n ++ str " results separated by commas.".
Definition notANumberMessage : jsstring :=
  str "Invalid input. Please ensure all values are numbers (e.g., 1.03, 2.5).".
Definition negativeValueMessage : jsstring :=
  str "Multiplier values cannot be negative.".
Definition zeroValueMessage : jsstring :=
  str "Multiplier values must be greater than 0 (typically >= 1.00).".

Definition comma : codeUnit := 44%N.

(** The functions below are created by a render of the component and close
    over the state variables of that render, [render]; what they set is the
    state of the component. *)

Definition validateAndParseInput (render : AppState) (input : jsstring)
  : M (option (list number)) :=
  let values :=
    filter (fun val => negb (isEmpty val)) (map (fun val => trim val) (split comma input)) in
  if negb (length values =? selectedHistoryLength render) then
    setError (Some (wrongCountMessage (selectedHistoryLength render))) ;;
    ret None
  else
  let numbers := map (fun val => parseFloat val) values in
  if existsb isNaN numbers then
    setError (Some notANumberMessage) ;;
    ret None
  else
  if existsb (fun num => lt num 0) numbers then
    setError (Some negativeValueMessage) ;;
    ret None
  else
  if existsb (fun num => strictEq num 0) numbers then
    setError (Some zeroValueMessage) ;;
    ret None
  else
  setError None ;;
  ret (Some numbers).

(** [handlePredict], up to the start of the timer. *)
Definition handlePredict (render : AppState) : M unit :=
  setIsLoading true ;;
  setError None ;;
  setPrediction None ;;
  setShowFeedbackOptions false ;;
  setFeedbackMessage None.

(** The function that [handlePredict] hands to [setTimeout]. *)
Definition handlePredict_timeout (render : AppState) : M unit :=
  parsedHistory <- validateAndParseInput render (historyInput render) ;;
  match parsedHistory with
  | Some parsedHistory =>
      let result := analyzeHistory parsedHistory in
      setPrediction (Some result) ;;
      setLastPredictionForFeedback (Some result) ;;
      setShowFeedbackOptions true
  | None =>
      setPrediction None ;;
      setShowFeedbackOptions false
  end ;;
  setIsLoading false.

(** A click on the button with nothing else happening before the timer
    fires: both parts run with the state of the click as their render. *)
Definition predict (st : AppState) : AppState :=
  snd (handlePredict_timeout st (snd (handlePredict st st))).

(** The state of a freshly mounted component. *)
Definition initialState : AppState := {|
  historyInput := [];
  prediction := None;
  error := None;
  isLoading := false;
  selectedHistoryLength := DEFAULT_HISTORY_LENGTH;
  showFeedbackOptions := false;
  lastPredictionForFeedback := None;
  feedbackMessage := None
|}.

Definition withInput (n : nat) (input : jsstring) : AppState := {|
  historyInput := input;
  prediction := None;
  error := None;
  isLoading := false;
  selectedHistoryLength := n;
  showFeedbackOptions := false;
  lastPredictionForFeedback := None;
  feedbackMessage := None
|}.

(** ** The vocabulary of the specification *)

(** The last entry of a history, when there is one. *)
Fixpoint lastEntry (h : list number) : option number :=
  match h with
  | [] => None
  | [x] => Some x
  | _ :: h' => lastEntry h'
  end.

(** The last [n] entries of a history (all of them when there are fewer). *)
Definition lastEntries (n : nat) (h : list number) : list number :=
  rev (firstn n (rev h)).

(** The number of entries that satisfy [p], counted over the whole list. *)
Fixpoint count {A} (p : A -> bool) (l : list A) : nat :=
  match l with
  | [] => 0
  | x :: l' => (if p x then 1 else 0) + count p l'
  end.

Definition below2 (v : number) : bool := lt v 2.
Definition atMost1_20 (v : number) : bool := le v 1.20.
Definition inStableRange (v : number) : bool := ge v 2 && le v 4.

(** The conditions of the BREAKOUT rule. *)
Definition breakoutConditions (h : list number) : Prop :=
  5 <= length h /\ 5 <= count below2 h /\ 2 <= count atMost1_20 h.

(** The result of the classifier for a category. *)
Definition resultOf (c : PredictionCategory) : PredictionResult :=
  withCategory c (PREDICTION_DETAILS c).

(** The rule cascade in the words of the specification: first match wins. *)
Definition classifyByRules (h : list number) : PredictionCategory :=
  if match lastEntry h with Some x => gt x 5 | None => false end then COOLDOWN
  else if (5 <=? length h) && (5 <=? count below2 h) && (2 <=? count atMost1_20 h)
  then BREAKOUT
  else if (3 <=? length h) && forallb inStableRange (lastEntries 3 h) then STABLE
  else LOW.

(** [analyzeHistory] without the length guard of the BREAKOUT rule: the two
    counts alone decide. *)
Definition analyzeHistory_countsOnly (history : list number) : PredictionResult :=
  let currentHistoryLength := length history in
  if currentHistoryLength <? 2 then
    withCategory LOW (PREDICTION_DETAILS LOW)
  else
  let lastValue := index history (Z.of_nat (length history) - 1) in
  if gt lastValue (COOLDOWN_THRESHOLD_GT_5X PREDICTION_RULES) then
    withCategory COOLDOWN (PREDICTION_DETAILS COOLDOWN)
  else
  match
    (let countLessThan2x := length (filter (fun val => lt val 2) history) in
     let countLessThanOrEqualTo1_20x :=
       length (filter (fun val => le val 1.20) history) in
     if (BREAKOUT_THRESHOLD_COUNT_LT_2X PREDICTION_RULES <=? countLessThan2x)
        && (BREAKOUT_THRESHOLD_COUNT_LTE_1_2X PREDICTION_RULES
            <=? countLessThanOrEqualTo1_20x)
     then returns (withCategory BREAKOUT (PREDICTION_DETAILS BREAKOUT))
     else fallsThrough)
  with
  | Some result => result
  | None =>
  match
    (if STABLE_HISTORY_COUNT PREDICTION_RULES <=? currentHistoryLength then
       let lastNValuesForStableRule :=
         slice (- Z.of_nat (STABLE_HISTORY_COUNT PREDICTION_RULES)) history in
       if length lastNValuesForStableRule =? STABLE_HISTORY_COUNT PREDICTION_RULES then
         let areLastNStable :=
           forallb (fun val => ge val (STABLE_LOWER_BOUND PREDICTION_RULES)
                               && le val (STABLE_UPPER_BOUND PREDICTION_RULES))
                   lastNValuesForStableRule in
         if areLastNStable
         then returns (withCategory STABLE (PREDICTION_DETAILS STABLE))
         else fallsThrough
       else fallsThrough
     else fallsThrough)
  with
  | Some result => result
  | None => withCategory LOW (PREDICTION_DETAILS LOW)
  end
  end.

(** The pieces of a raw input: split on commas, trimmed, the empty ones
    discarded (the [values] of [validateAndParseInput]). *)
Definition pieces (input : jsstring) : list jsstring :=
  filter (fun val => negb (isEmpty val)) (map (fun val => trim val) (split comma input)).

(** What the pieces are, in the words of the specification.  [t] is [s]
    trimmed when [s] is [t] between two runs of white space and [t] neither
    starts nor ends with white space. *)
Definition startsWithWhiteSpace (s : jsstring) : bool :=
  match s with
  | c :: _ => isWhiteSpace c
  | [] => false
  end.

Definition trimOf (s t : jsstring) : Prop :=
  exists l r,
    s = l ++ t ++ r
    /\ forallb isWhiteSpace l = true /\ forallb isWhiteSpace r = true
    /\ startsWithWhiteSpace t = false /\ startsWithWhiteSpace (rev t) = false.

Definition unlessEmpty (t : jsstring) : list jsstring :=
  if isEmpty t then [] else [t].

(** The input is cut at every comma; each part is trimmed and kept unless
    it is empty; the parts keep their order. *)
Inductive PiecesOf : jsstring -> list jsstring -> Prop :=
| PiecesOf_last (s t : jsstring) :
    ~ In comma s -> trimOf s t -> PiecesOf s (unlessEmpty t)
| PiecesOf_comma (s t rest : jsstring) (ps : list jsstring) :
    ~ In comma s -> trimOf s t -> PiecesOf rest ps ->
    PiecesOf (s ++ comma :: rest) (unlessEmpty t ++ ps).

(** The validation failures, and the message of each. *)
Inductive ValidationError := WrongCount | NotANumber | NegativeValue | ZeroValue.

Definition errorMessage (n : nat) (e : ValidationError) : jsstring :=
  match e with
  | WrongCount => wrongCountMessage n
  | NotANumber => notANumberMessage
  | NegativeValue => negativeValueMessage
  | ZeroValue => zeroValueMessage
  end.

(** When an input of required length [n] triggers a failure. *)
Definition triggers (n : nat) (input : jsstring) (e : ValidationError) : bool :=
  match e with
  | WrongCount => negb (length (pieces input) =? n)
  | NotANumber => existsb (fun p => isNaN (parseFloat p)) (pieces input)
  | NegativeValue => existsb (fun p => lt (parseFloat p) 0) (pieces input)
  | ZeroValue => existsb (fun p => strictEq (parseFloat p) 0) (pieces input)
  end.

(** The rank of a failure in the order of the checks. *)
Definition priority (e : ValidationError) : nat :=
  match e with
  | WrongCount => 1
  | NotANumber => 2
  | NegativeValue => 3
  | ZeroValue => 4
  end.

(** The first failure triggered, in the priority order of the checks. *)
Definition firstTriggered (n : nat) (input : jsstring) : option ValidationError :=
  find (triggers n input) [WrongCount; NotANumber; NegativeValue; ZeroValue].

(** ** App.tsx: the other handlers, the effect and what is rendered *)

Definition setHistoryInput (v : jsstring) : M unit := fun st =>
  (tt, {| historyInput := v; prediction := prediction st; error := error st;
          isLoading := isLoading st;
          selectedHistoryLength := selectedHistoryLength st;
          showFeedbackOptions := showFeedbackOptions st;
          lastPredictionForFeedback := lastPredictionForFeedback st;
          feedbackMessage := feedbackMessage st |}).

Definition setSelectedHistoryLength (v : nat) : M unit := fun st =>
  (tt, {| historyInput := historyInput st; prediction := prediction st;
          error := error st; isLoading := isLoading st;
          selectedHistoryLength := v;
          showFeedbackOptions := showFeedbackOptions st;
          lastPredictionForFeedback := lastPredictionForFeedback st;
          feedbackMessage := feedbackMessage st |}).

Definition handleHistoryLengthChange (length : nat) : M unit :=
  setSelectedHistoryLength length ;;
  setHistoryInput [] ;;
  setError None ;;
  setPrediction None ;;
  setShowFeedbackOptions false ;;
  setFeedbackMessage None.

(** [handleFeedback], up to the start of its timer. *)
Definition handleFeedback (wasCorrect : bool) : M unit :=
  setFeedbackMessage
    (Some (if wasCorrect
           then str "Thanks! Glad the AI was on point."
           else str "Thanks for the feedback! The AI is always learning (figuratively!).")) ;;
  setShowFeedbackOptions false.

(** The function that [handleFeedback] hands to [setTimeout]. *)
Definition handleFeedback_timeout : M unit :=
  setFeedbackMessage None.

(** The effect of [useEffect(..., [historyInput])]: it runs when the
    component is mounted and after every render in which [historyInput] has
    changed. *)
Definition historyInputEffect : M unit :=
  setPrediction None ;;
  setShowFeedbackOptions false ;;
  setFeedbackMessage None ;;
  setError None.

(** [s1 === s2] on strings. *)
Fixpoint stringEq (s1 s2 : jsstring) : bool :=
  match s1, s2 with
  | [], [] => true
  | a :: s1', b :: s2' => (a =? b)%N && stringEq s1' s2'
  | _, _ => false
  end.

(** The truth value of a [string | null]: [null] and the empty string are
    false. *)
Definition truthy (s : option jsstring) : bool :=
  match s with
  | Some (_ :: _) => true
  | _ => false
  end.

Definition isNull {A} (o : option A) : bool :=
  match o with
  | Some _ => false
  | None => true
  end.


Definition showsPredictionCard (st : AppState) : bool :=
  negb (isLoading st)
  && match prediction st with
     | Some p => match category p with NONE => false | _ => true end
     | None => false
     end.


Definition showsFeedbackSection (st : AppState) : bool :=
  negb (isLoading st) && showFeedbackOptions st
  && negb (isNull (lastPredictionForFeedback st)).

Definition showsFeedbackMessage (st : AppState) : bool :=
  truthy (feedbackMessage st).

(** ** components/InputForm.tsx *)

Definition historyLengthOptions : list nat := [2; 3; 6].

(** The error paragraph, [{error && ...}]. *)
Definition showsError (st : AppState) : bool := truthy (error st).

(** [disabled] of the radio buttons and of the text input. *)
Definition inputsDisabled (st : AppState) : bool := isLoading st.

(** [disabled] of the submit button, [isLoading || !historyInput.trim()]. *)
Definition submitDisabled (st : AppState) : bool :=
  isLoading st || isEmpty (trim (historyInput st)).

(** ** The page as a transition system *)

(** The timers started and not yet fired.  The timer of [handlePredict]
    keeps the render in which [handlePredict] was created. *)
Inductive Timer :=
| PredictTimer (render : AppState)
| FeedbackTimer.

Record Page := {
  appState : AppState;
  pending : list Timer
}.

(** What the user and the clock can do to the page. *)
Inductive Event :=
| TypeInput (value : jsstring)
| SelectLength (len : nat)
| ClickSubmit
| ClickFeedback (wasCorrect : bool)
| TimerFires (i : nat).

Definition fire (t : Timer) : M unit :=
  match t with
  | PredictTimer render => handlePredict_timeout render
  | FeedbackTimer => handleFeedback_timeout
  end.

(** The page after an event, when the page allows the event: the inputs
    are disabled while loading, the radio buttons are those of
    [historyLengthOptions], the button can be disabled, the feedback
    buttons exist only in the feedback section, and a timer fires only if
    it is pending.  The effect runs when the handler has changed
    [historyInput]. *)
Definition react (e : Event) (p : Page) : option Page :=
  let st := appState p in
  match e with
  | TypeInput value =>
      if inputsDisabled st then None
      else Some {|
        appState := snd ((setHistoryInput value ;;
                     if stringEq value (historyInput st) then ret tt
                     else historyInputEffect) st);
        pending := pending p |}
  | SelectLength len =>
      if inputsDisabled st || negb (existsb (Nat.eqb len) historyLengthOptions)
      then None
      else Some {|
        appState := snd ((handleHistoryLengthChange len ;;
                     if stringEq [] (historyInput st) then ret tt
                     else historyInputEffect) st);
        pending := pending p |}
  | ClickSubmit =>
      if submitDisabled st then None
      else Some {| appState := snd (handlePredict st st);
                   pending := pending p ++ [PredictTimer st] |}
  | ClickFeedback wasCorrect =>
      if showsFeedbackSection st
      then Some {| appState := snd (handleFeedback wasCorrect st);
                   pending := pending p ++ [FeedbackTimer] |}
      else None
  | TimerFires i =>
      match nth_error (pending p) i with
      | Some t => Some {| appState := snd (fire t st);
                          pending := firstn i (pending p) ++ skipn (S i) (pending p) |}
      | None => None
      end
  end.

Fixpoint reactAll (es : list Event) (p : Page) : option Page :=
  match es with
  | [] => Some p
  | e :: es' =>
      match react e p with
      | Some p' => reactAll es' p'
      | None => None
      end
  end.

(** The page once mounted: the effect has run on the initial state. *)
Definition initialPage : Page := {|
  appState := snd (historyInputEffect initialState);
  pending := []
|}.

Definition reachable (p : Page) : Prop :=
  exists es, reactAll es initialPage = Some p.

Definition isPredictTimer (t : Timer) : bool :=
  match t with
  | PredictTimer _ => true
  | FeedbackTimer => false
  end.

(** What every page reached from the initial one satisfies.  What is
    displayed belongs to the input in the box: a prediction is the analysis
    of that input, which is valid; an error is the message of the first
    failure of that input; the feedback buttons are offered for the
    prediction on the page. *)
Definition displayedForInput (st : AppState) : Prop :=
  (forall r, prediction st = Some r ->
     firstTriggered (selectedHistoryLength st) (historyInput st) = None
     /\ r = analyzeHistory (map parseFloat (pieces (historyInput st)))
     /\ error st = None)
  /\ (forall m, error st = Some m ->
        exists e,
          firstTriggered (selectedHistoryLength st) (historyInput st) = Some e
          /\ m = errorMessage (selectedHistoryLength st) e)
  /\ (showFeedbackOptions st = true ->
        prediction st <> None /\ lastPredictionForFeedback st = prediction st).

(** While loading, one timer of [handlePredict] is pending, created in a
    render with the input and the length of the page, and nothing is
    displayed; otherwise none is pending. *)
Definition timersForLoading (p : Page) : Prop :=
  let st := appState p in
  if isLoading st then
    (exists render,
        filter isPredictTimer (pending p) = [PredictTimer render]
        /\ historyInput render = historyInput st
        /\ selectedHistoryLength render = selectedHistoryLength st)
    /\ prediction st = None /\ error st = None /\ showFeedbackOptions st = false
  else filter isPredictTimer (pending p) = [].

Definition pageInvariant (p : Page) : Prop :=
  In (selectedHistoryLength (appState p)) historyLengthOptions
  /\ displayedForInput (appState p)
  /\ timersForLoading p.

(** ** Numbers: facts on the comparisons *)

Lemma SFcompare_antisym (a b : spec_float) :
  SFcompare b a = option_map CompOpp (SFcompare a b).
Proof.
  destruct a as [sa|sa| |sa ma ea], b as [sb|sb| |sb mb eb];
    try destruct sa; try destruct sb; try reflexivity; cbn [SFcompare option_map].
  - rewrite (Z.compare_antisym ea eb).
    destruct (ea ?= eb)%Z; cbn; try reflexivity.
    change (Pos.compare_cont Eq mb ma) with (mb ?= ma)%positive.
    change (Pos.compare_cont Eq ma mb) with (ma ?= mb)%positive.
    rewrite (Pos.compare_antisym ma mb). now destruct (ma ?= mb)%positive.
  - rewrite (Z.compare_antisym ea eb).
    destruct (ea ?= eb)%Z; cbn; try reflexivity.
    change (Pos.compare_cont Eq mb ma) with (mb ?= ma)%positive.
    change (Pos.compare_cont Eq ma mb) with (ma ?= mb)%positive.
    rewrite (Pos.compare_antisym ma mb). now destruct (ma ?= mb)%positive.
Qed.

Lemma le_not_gt (x y : number) : le x y = true -> gt x y = false.
Proof.
  unfold le, gt. rewrite FloatAxioms.leb_spec, FloatAxioms.ltb_spec. unfold SFleb, SFltb.
  rewrite (SFcompare_antisym (Prim2SF x) (Prim2SF y)).
  destruct (SFcompare (Prim2SF x) (Prim2SF y)) as [[ | | ]|]; cbn; congruence.
Qed.

Lemma positive_when_checked (x : number) :
  isNaN x = false -> lt x 0 = false -> strictEq x 0 = false -> gt x 0 = true.
Proof.
  unfold isNaN, is_nan, lt, gt, strictEq.
  rewrite !FloatAxioms.ltb_spec, !FloatAxioms.eqb_spec.
  change (Prim2SF 0) with (S754_zero false).
  destruct (Prim2SF x) as [s|s| |s m e]; try destruct s; cbn; congruence.
Qed.

(** ** Lists: counting, the last entries, [slice] and [index] *)

Section Counting.
Context {A : Type} (p : A -> bool).

Lemma count_filter (l : list A) : length (filter p l) = count p l.
Proof.
  induction l as [|x l IH]; cbn; [reflexivity|].
  destruct (p x); cbn; now rewrite IH.
Qed.

Lemma count_le_length (l : list A) : count p l <= length l.
Proof.
  induction l as [|x l IH]; cbn; [lia|]. destruct (p x); lia.
Qed.
End Counting.

Lemma lastEntry_app (pre : list number) (x : number) : lastEntry (pre ++ [x]) = Some x.
Proof.
  induction pre as [|a pre IH]; [reflexivity|].
  cbn [app lastEntry]. rewrite IH. now destruct (pre ++ [x]) eqn:E; [destruct pre|].
Qed.

Lemma lastEntry_shape (h : list number) (x : number) :
  lastEntry h = Some x -> exists pre, h = pre ++ [x].
Proof.
  induction h as [|a h IH]; [discriminate|].
  destruct h as [|b h].
  - cbn. intros [= ->]. now exists [].
  - intros H. destruct (IH H) as [pre ->]. now exists (a :: pre).
Qed.

Lemma lastEntry_nonempty (h : list number) :
  1 <= length h -> exists x, lastEntry h = Some x.
Proof.
  induction h as [|a h IH]; cbn [length]; [lia|]. intros _.
  destruct h as [|b h]; [now exists a|]. apply IH. cbn. lia.
Qed.

Lemma index_last (h : list number) :
  index h (Z.of_nat (length h) - 1) =
  match lastEntry h with Some x => x | None => nan end.
Proof.
  destruct (lastEntry h) as [x|] eqn:E.
  - destruct (lastEntry_shape h x E) as [pre ->].
    unfold index. rewrite length_app. cbn [length].
    replace (Z.of_nat (length pre + 1) - 1)%Z with (Z.of_nat (length pre)) by lia.
    destruct (Z.ltb_spec (Z.of_nat (length pre)) 0); [lia|].
    rewrite Nat2Z.id. apply nth_middle.
  - destruct h as [|a h]; [reflexivity|].
    destruct (lastEntry_nonempty (a :: h)) as [x Hx]; [cbn; lia|congruence].
Qed.

Lemma slice_lastEntries (n : nat) (h : list number) :
  1 <= n <= length h -> slice (- Z.of_nat n) h = lastEntries n h.
Proof.
  intros Hn. unfold slice, lastEntries.
  destruct (Z.ltb_spec (- Z.of_nat n) 0); [|lia].
  rewrite firstn_rev, rev_involutive. f_equal. lia.
Qed.

Lemma lastEntries_length (n : nat) (h : list number) :
  n <= length h -> length (lastEntries n h) = n.
Proof.
  intros Hn. unfold lastEntries.
  rewrite length_rev, length_firstn, length_rev. lia.
Qed.

Lemma lastEntries_app (pre suf : list number) :
  lastEntries (length suf) (pre ++ suf) = suf.
Proof.
  unfold lastEntries. rewrite rev_app_distr, <- length_rev.
  rewrite firstn_app, firstn_all, Nat.sub_diag, firstn_O, app_nil_r.
  apply rev_involutive.
Qed.

Lemma lastEntries_shape (n : nat) (h : list number) :
  n <= length h -> exists pre, h = pre ++ lastEntries n h.
Proof.
  intros Hn. exists (firstn (length h - n) h). unfold lastEntries.
  rewrite firstn_rev, rev_involutive. symmetry. apply firstn_skipn.
Qed.

(** ** [analyzeHistory] follows the rule cascade *)

Lemma analyzeHistory_short (h : list number) :
  length h < 2 -> analyzeHistory h = resultOf LOW.
Proof.
  intros H. unfold analyzeHistory.
  destruct (Nat.ltb_spec (length h) 2); [reflexivity|lia].
Qed.

Lemma analyzeHistory_rules (h : list number) :
  2 <= length h -> analyzeHistory h = resultOf (classifyByRules h).
Proof.
  intros H. unfold analyzeHistory, classifyByRules.
  destruct (Nat.ltb_spec (length h) 2); [lia|].
  rewrite index_last.
  cbn [PREDICTION_RULES COOLDOWN_THRESHOLD_GT_5X BREAKOUT_THRESHOLD_COUNT_LT_2X
       BREAKOUT_THRESHOLD_COUNT_LTE_1_2X STABLE_LOWER_BOUND STABLE_UPPER_BOUND
       STABLE_HISTORY_COUNT].
  destruct (lastEntry_nonempty h) as [x ->]; [lia|].
  destruct (gt x 5); [reflexivity|].
  change (length (filter (fun val => lt val 2) h)) with (length (filter below2 h)).
  change (length (filter (fun val => le val 1.20) h))
    with (length (filter atMost1_20 h)).
  rewrite !count_filter.
  destruct (5 <=? length h) eqn:E5; cbn [andb].
  - destruct ((5 <=? count below2 h) && (2 <=? count atMost1_20 h)); [reflexivity|].
    assert (E3 : (3 <=? length h) = true) by (apply Nat.leb_le; apply Nat.leb_le in E5; lia).
    rewrite E3. cbn [andb]. apply Nat.leb_le in E3.
    rewrite (slice_lastEntries 3 h) by lia.
    rewrite lastEntries_length, Nat.eqb_refl by lia.
    change (fun val => ge val 2 && le val 4) with inStableRange.
    now destruct (forallb inStableRange (lastEntries 3 h)).
  - destruct (3 <=? length h) eqn:E3; cbn [andb]; [|reflexivity].
    apply Nat.leb_le in E3.
    rewrite (slice_lastEntries 3 h) by lia.
    rewrite lastEntries_length, Nat.eqb_refl by lia.
    change (fun val => ge val 2 && le val 4) with inStableRange.
    now destruct (forallb inStableRange (lastEntries 3 h)).
Qed.

(** ** Strings: [trim], [split] and the pieces of an input *)

Section While.
Context {A : Type} (p : A -> bool).

Lemma takeWhile_dropWhile (l : list A) : takeWhile p l ++ dropWhile p l = l.
Proof.
  induction l as [|x l IH]; cbn; [reflexivity|].
  destruct (p x); cbn; [now rewrite IH|reflexivity].
Qed.

Lemma takeWhile_all (l : list A) : forallb p (takeWhile p l) = true.
Proof.
  induction l as [|x l IH]; cbn; [reflexivity|].
  destruct (p x) eqn:E; cbn; [now rewrite E|reflexivity].
Qed.

Lemma dropWhile_head (l : list A) :
  match dropWhile p l with
  | x :: _ => p x = false
  | [] => True
  end.
Proof.
  induction l as [|x l IH]; cbn; [exact I|].
  destruct (p x) eqn:E; [exact IH|exact E].
Qed.

Lemma dropWhile_all (l m : list A) :
  forallb p l = true -> dropWhile p (l ++ m) = dropWhile p m.
Proof.
  induction l as [|x l IH]; cbn; [reflexivity|].
  intros H. apply andb_prop in H as [Hx Hl]. now rewrite Hx, IH.
Qed.

Lemma forallb_rev (l : list A) : forallb p (rev l) = forallb p l.
Proof.
  induction l as [|x l IH]; cbn; [reflexivity|].
  rewrite forallb_app, IH. cbn. rewrite andb_true_r. apply andb_comm.
Qed.
End While.

(** The builtins on a few inputs. *)
Example split_examples :
  map (split comma) [str ""; str ","; str "a,b"; str "a,,b,"]
  = [[str ""]; [str ""; str ""]; [str "a"; str "b"];
     [str "a"; str ""; str "b"; str ""]].
Proof. reflexivity. Qed.

Example trim_examples :
  map trim [str "  a b  "; str "   "; str ""; 160%N :: str "1" ++ [9%N; 8232%N]]
  = [str "a b"; str ""; str ""; str "1"].
Proof. reflexivity. Qed.

Example parseFloat_examples :
  map (fun s => parseFloat (str s))
    ["1.0"; " 2.0"; "1.20"; "1.18"; "-1"; "0"; ".5"; "1.e5"; "12abc"; "1e";
     "0.1"; "1e400"; "1e-400"; "Infinity"; "-Infinityx"; "abc"; "+-1"; ".e5";
     ""]%string
  = [1.0; 2.0; 1.20; 1.18; -1; 0; 0.5; 100000; 12; 1;
     0.1; infinity; 0; infinity; neg_infinity; nan; nan; nan; nan]%float.
Proof. vm_compute. reflexivity. Qed.

Example parseFloat_negative_zero :
  Prim2SF (parseFloat (str "-0")) = S754_zero true
  /\ strictEq (parseFloat (str "-0")) 0 = true.
Proof. split; vm_compute; reflexivity. Qed.

Lemma trim_trimOf (s : jsstring) : trimOf s (trim s).
Proof.
  unfold trim, trimEnd, trimStart.
  set (t1 := dropWhile isWhiteSpace s).
  exists (takeWhile isWhiteSpace s), (rev (takeWhile isWhiteSpace (rev t1))).
  assert (E1 : t1 = rev (dropWhile isWhiteSpace (rev t1))
                    ++ rev (takeWhile isWhiteSpace (rev t1))).
  { rewrite <- rev_app_distr, takeWhile_dropWhile. symmetry. apply rev_involutive. }
  repeat split.
  - rewrite <- E1. symmetry. apply takeWhile_dropWhile.
  - apply takeWhile_all.
  - rewrite forallb_rev. apply takeWhile_all.
  - pose proof (dropWhile_head isWhiteSpace s) as Hh. fold t1 in Hh.
    destruct (rev (dropWhile isWhiteSpace (rev t1))) as [|c u]; [reflexivity|].
    rewrite E1 in Hh. exact Hh.
  - rewrite rev_involutive.
    pose proof (dropWhile_head isWhiteSpace (rev t1)) as Hh.
    now destruct (dropWhile isWhiteSpace (rev t1)).
Qed.

Lemma trimOf_unique (s t : jsstring) : trimOf s t -> t = trim s.
Proof.
  intros (l & r & -> & Hl & Hr & Hs & He).
  unfold trim, trimStart, trimEnd. rewrite (dropWhile_all _ l _ Hl).
  destruct t as [|c u].
  - cbn [app]. rewrite <- (app_nil_r r) at 1. rewrite (dropWhile_all _ r [] Hr).
    reflexivity.
  - cbn in Hs. cbn [app dropWhile]. rewrite Hs.
    change (c :: u ++ r) with ((c :: u) ++ r). rewrite rev_app_distr.
    rewrite dropWhile_all by now rewrite forallb_rev.
    destruct (rev (c :: u)) as [|d v] eqn:E.
    + apply (f_equal (@rev _)) in E. rewrite rev_involutive in E. discriminate.
    + cbn in He. cbn [dropWhile]. rewrite He, <- E. symmetry. apply rev_involutive.
Qed.

Lemma split_nonempty (sep : codeUnit) (s : jsstring) : split sep s <> [].
Proof.
  destruct s as [|c s]; cbn; [discriminate|].
  destruct (c =? sep)%N; [discriminate|]. now destruct (split sep s).
Qed.

Lemma split_without_separator (sep : codeUnit) (s : jsstring) :
  ~ In sep s -> split sep s = [s].
Proof.
  induction s as [|c s IH]; cbn; [reflexivity|]. intros H.
  destruct (N.eqb_spec c sep) as [->|_]; [tauto|].
  rewrite IH by tauto. reflexivity.
Qed.

Lemma split_at_separator (sep : codeUnit) (s1 s2 : jsstring) :
  split sep (s1 ++ sep :: s2) = split sep s1 ++ split sep s2.
Proof.
  induction s1 as [|c s1 IH]; cbn.
  - now rewrite N.eqb_refl.
  - destruct (c =? sep)%N; rewrite IH; [reflexivity|].
    pose proof (split_nonempty sep s1) as Hne.
    now destruct (split sep s1).
Qed.

Lemma pieces_without_comma (s : jsstring) :
  ~ In comma s -> pieces s = unlessEmpty (trim s).
Proof.
  intros H. unfold pieces, unlessEmpty. rewrite (split_without_separator comma s H).
  cbn. now destruct (isEmpty (trim s)).
Qed.

Lemma pieces_at_comma (s1 s2 : jsstring) :
  pieces (s1 ++ comma :: s2) = pieces s1 ++ pieces s2.
Proof.
  unfold pieces. now rewrite split_at_separator, map_app, filter_app.
Qed.

(** A string has no comma, or a first one. *)
Lemma first_comma (s : jsstring) :
  ~ In comma s
  \/ exists s1 s2, s = s1 ++ comma :: s2 /\ ~ In comma s1.
Proof.
  induction s as [|c s IH]; [left; intros []|].
  destruct (N.eqb_spec c comma) as [->|Hc].
  - right. exists [], s. split; [reflexivity|intros []].
  - destruct IH as [Hn|(s1 & s2 & -> & Hn)].
    + left. intros [Hin|Hin]; [now apply Hc|now apply Hn].
    + right. exists (c :: s1), s2. split; [reflexivity|].
      intros [Hin|Hin]; [now apply Hc|now apply Hn].
Qed.

Lemma pieces_PiecesOf (input : jsstring) : PiecesOf input (pieces input).
Proof.
  remember (length input) as n eqn:En.
  revert input En. induction n as [n IH] using lt_wf_ind. intros input ->.
  destruct (first_comma input) as [Hn|(s1 & s2 & -> & Hn)].
  - rewrite (pieces_without_comma input Hn).
    apply PiecesOf_last; [exact Hn|apply trim_trimOf].
  - rewrite pieces_at_comma, (pieces_without_comma s1 Hn).
    apply PiecesOf_comma; [exact Hn|apply trim_trimOf|].
    apply (IH (length s2)); [|reflexivity].
    rewrite length_app. cbn. lia.
Qed.

Lemma PiecesOf_functional (input : jsstring) (ps : list jsstring) :
  PiecesOf input ps -> ps = pieces input.
Proof.
  induction 1 as [s t Hn Ht|s t rest ps Hn Ht _ IH].
  - now rewrite (pieces_without_comma s Hn), (trimOf_unique s t Ht).
  - now rewrite pieces_at_comma, (pieces_without_comma s Hn),
      (trimOf_unique s t Ht), IH.
Qed.

(** Repeated and trailing commas add no piece. *)
Lemma pieces_trailing_comma (s : jsstring) : pieces (s ++ [comma]) = pieces s.
Proof.
  rewrite pieces_at_comma. apply app_nil_r.
Qed.

Lemma pieces_repeated_comma (s1 s2 : jsstring) :
  pieces (s1 ++ comma :: comma :: s2) = pieces (s1 ++ comma :: s2).
Proof.
  now rewrite (pieces_at_comma s1 (comma :: s2)), (pieces_at_comma s1 s2).
Qed.

(** ** [validateAndParseInput] reports the first failure triggered *)

Lemma existsb_map {A B} (f : B -> bool) (g : A -> B) (l : list A) :
  existsb f (map g l) = existsb (fun x => f (g x)) l.
Proof.
  induction l as [|x l IH]; cbn; [reflexivity|]. now rewrite IH.
Qed.

Lemma validateAndParseInput_firstTriggered (render : AppState) (input : jsstring)
  (st : AppState) :
  validateAndParseInput render input st =
  match firstTriggered (selectedHistoryLength render) input with
  | Some e =>
      (None, snd (setError (Some (errorMessage (selectedHistoryLength render) e)) st))
  | None => (Some (map parseFloat (pieces input)), snd (setError None st))
  end.
Proof.
  unfold validateAndParseInput, firstTriggered.
  fold (pieces input). cbn [find triggers].
  destruct (negb (length (pieces input) =? selectedHistoryLength render));
    [reflexivity|].
  rewrite !existsb_map.
  destruct (existsb (fun p => isNaN (parseFloat p)) (pieces input)); [reflexivity|].
  destruct (existsb (fun p => lt (parseFloat p) 0) (pieces input)); [reflexivity|].
  destruct (existsb (fun p => strictEq (parseFloat p) 0) (pieces input));
    reflexivity.
Qed.

Lemma errorMessage_injective (n n' : nat) (e e' : ValidationError) :
  errorMessage n e = errorMessage n' e' -> e = e'.
Proof.
  destruct e, e'; try reflexivity; intros H; exfalso;
    first [ apply (f_equal (fun m => hd 0%N m)) in H; vm_compute in H; discriminate
          | apply (f_equal (fun m => nth 18 m 0%N)) in H; vm_compute in H;
            discriminate ].
Qed.

Lemma existsb_false {A} (f : A -> bool) (l : list A) :
  existsb f l = false -> forall x, In x l -> f x = false.
Proof.
  intros H x Hx. destruct (f x) eqn:E; [|reflexivity].
  rewrite <- H. symmetry. apply existsb_exists. now exists x.
Qed.

Lemma firstTriggered_first (n : nat) (input : jsstring) (e : ValidationError) :
  firstTriggered n input = Some e ->
  triggers n input e = true
  /\ forall e', priority e' < priority e -> triggers n input e' = false.
Proof.
  unfold firstTriggered. cbn [find].
  destruct (triggers n input WrongCount) eqn:E1;
    [|destruct (triggers n input NotANumber) eqn:E2;
      [|destruct (triggers n input NegativeValue) eqn:E3;
        [|destruct (triggers n input ZeroValue) eqn:E4]]];
    intros [= <-]; (split; [assumption|]);
    intros [ | | | ]; cbn [priority]; intros Hp; try assumption; lia.
Qed.

Lemma firstTriggered_none (n : nat) (input : jsstring) :
  firstTriggered n input = None -> forall e, triggers n input e = false.
Proof.
  intros H e. apply (find_none _ _ H). destruct e; cbn; tauto.
Qed.

Lemma PiecesOf_nonempty (input : jsstring) (ps : list jsstring) :
  PiecesOf input ps -> Forall (fun p => p <> []) ps.
Proof.
  assert (Hu : forall t, Forall (fun p : jsstring => p <> []) (unlessEmpty t)).
  { intros [|c t]; cbn; [constructor|]. constructor; [discriminate|constructor]. }
  induction 1 as [s t _ _|s t rest ps _ _ _ IH]; [apply Hu|].
  apply Forall_app. split; [apply Hu|exact IH].
Qed.

(** The pieces alone decide the outcome of the validation. *)
Lemma validateAndParseInput_pieces (render : AppState) (input input' : jsstring)
  (st : AppState) :
  pieces input' = pieces input ->
  validateAndParseInput render input' st = validateAndParseInput render input st.
Proof.
  intros H. rewrite !validateAndParseInput_firstTriggered.
  unfold firstTriggered, triggers. cbn [find]. now rewrite H.
Qed.

(** ** The classifier *)

(** Closed inequalities between lengths and counts. *)
Ltac decide_le := vm_compute; repeat constructor.

(** C1. For every history of at least two entries, [analyzeHistory] returns
    the result of one of the categories BREAKOUT, COOLDOWN, STABLE and LOW,
    and its category is never NONE.  The function is total and has no error
    outcome: its result type is [PredictionResult] itself. *)
Theorem analyzeHistory_concrete_category (h : list number) :
  2 <= length h ->
  (exists c, In c [BREAKOUT; COOLDOWN; STABLE; LOW] /\ analyzeHistory h = resultOf c)
  /\ category (analyzeHistory h) <> NONE.
Proof.
  intros H. rewrite (analyzeHistory_rules h H). unfold classifyByRules.
  destruct (match lastEntry h with Some x => gt x 5 | None => false end);
    [|destruct (_ && _); [|destruct (_ && _)]];
    (split; [eexists; split; [|reflexivity]; cbn; tauto | discriminate]).
Qed.

Lemma analyzeHistory_concrete_category_witness :
  2 <= length [1.0; 1.0]%float
  /\ ((exists c, In c [BREAKOUT; COOLDOWN; STABLE; LOW]
                 /\ analyzeHistory [1.0; 1.0]%float = resultOf c)
      /\ category (analyzeHistory [1.0; 1.0]%float) <> NONE).
Proof.
  split; [apply le_n|].
  apply (analyzeHistory_concrete_category [1.0; 1.0]%float). apply le_n.
Defined.

(** C2. For every history of at least two entries whose last entry is
    greater than 5.0, [analyzeHistory] returns COOLDOWN, whatever the other
    entries are and whether or not the conditions of BREAKOUT or STABLE
    hold too. *)
Theorem cooldown_wins (h : list number) (x : number) :
  2 <= length h ->
  lastEntry h = Some x ->
  gt x 5 = true ->
  analyzeHistory h = resultOf COOLDOWN.
Proof.
  intros H Hx Hgt. rewrite (analyzeHistory_rules h H). unfold classifyByRules.
  now rewrite Hx, Hgt.
Qed.

(** The history [1.0, 1.1, 1.15, 1.18, 6.0] is classified COOLDOWN. *)
Lemma cooldown_wins_witness :
  let h := [1.0; 1.1; 1.15; 1.18; 6.0]%float in
  2 <= length h /\ lastEntry h = Some 6.0%float /\ gt 6.0 5 = true
  /\ analyzeHistory h = resultOf COOLDOWN.
Proof.
  cbv zeta. split; [decide_le|].
  split; [reflexivity|]. split; [reflexivity|].
  apply (cooldown_wins [1.0; 1.1; 1.15; 1.18; 6.0]%float 6.0%float);
    [decide_le|reflexivity|reflexivity].
Defined.

(** Four entries of that history are below 2.0, so that the conditions of
    BREAKOUT do not hold on it.  On [1.0, 1.1, 1.15, 1.18, 1.5, 6.0] they
    do, and COOLDOWN is still the result. *)
Example cooldown_example_counts :
  count below2 [1.0; 1.1; 1.15; 1.18; 6.0]%float = 4
  /\ ~ breakoutConditions [1.0; 1.1; 1.15; 1.18; 6.0]%float.
Proof.
  split; [reflexivity|]. intros (_ & H & _). vm_compute in H.
  do 4 apply le_S_n in H. inversion H.
Qed.

Example cooldown_over_breakout :
  let h := [1.0; 1.1; 1.15; 1.18; 1.5; 6.0]%float in
  breakoutConditions h /\ analyzeHistory h = resultOf COOLDOWN.
Proof.
  cbv zeta. split; [repeat split; decide_le|reflexivity].
Qed.

(** C3. For every history of at least two entries whose last entry is at
    most 5.0: if it has at least five entries, at least five of all its
    entries are below 2.0 and at least two of all its entries are at most
    1.20, then [analyzeHistory] returns BREAKOUT. *)
Theorem breakout_rule (h : list number) (x : number) :
  2 <= length h ->
  lastEntry h = Some x ->
  le x 5 = true ->
  5 <= length h ->
  5 <= count below2 h ->
  2 <= count atMost1_20 h ->
  analyzeHistory h = resultOf BREAKOUT.
Proof.
  intros H Hx Hle H5 Hc5 Hc2. rewrite (analyzeHistory_rules h H).
  unfold classifyByRules. rewrite Hx, (le_not_gt x 5%float Hle).
  apply Nat.leb_le in H5, Hc5, Hc2. now rewrite H5, Hc5, Hc2.
Qed.

Lemma breakout_rule_witness :
  let h := [1.0; 1.1; 1.15; 1.18; 1.5]%float in
  2 <= length h /\ lastEntry h = Some 1.5%float /\ le 1.5 5 = true
  /\ 5 <= length h /\ 5 <= count below2 h /\ 2 <= count atMost1_20 h
  /\ analyzeHistory h = resultOf BREAKOUT.
Proof.
  cbv zeta.
  split; [decide_le|]. split; [reflexivity|]. split; [reflexivity|].
  split; [decide_le|]. split; [decide_le|].
  split; [decide_le|].
  apply (breakout_rule [1.0; 1.1; 1.15; 1.18; 1.5]%float 1.5%float);
    try reflexivity; decide_le.
Defined.

(** C4. For every history of at least three entries whose last entry is at
    most 5.0 and on which the conditions of BREAKOUT do not all hold: if
    each of the last three entries lies between 2.0 and 4.0, both included,
    then [analyzeHistory] returns STABLE; the entries before the last three
    play no part. *)
Theorem stable_rule (h : list number) (x : number) :
  3 <= length h ->
  lastEntry h = Some x ->
  le x 5 = true ->
  ~ breakoutConditions h ->
  (forall v, In v (lastEntries 3 h) -> ge v 2 = true /\ le v 4 = true) ->
  analyzeHistory h = resultOf STABLE.
Proof.
  intros H Hx Hle Hnb Hst. rewrite (analyzeHistory_rules h) by lia.
  unfold classifyByRules. rewrite Hx, (le_not_gt x 5%float Hle).
  destruct ((5 <=? length h) && (5 <=? count below2 h) && (2 <=? count atMost1_20 h))
    eqn:Eb.
  - exfalso. apply Hnb. apply andb_prop in Eb as [Eb E2].
    apply andb_prop in Eb as [E5 Ec]. apply Nat.leb_le in E5, Ec, E2.
    now repeat split.
  - assert (E3 : (3 <=? length h) = true) by now apply Nat.leb_le.
    assert (Ef : forallb inStableRange (lastEntries 3 h) = true).
    { apply forallb_forall. intros v Hv. destruct (Hst v Hv) as [Hge Hle'].
      unfold inStableRange. now rewrite Hge, Hle'. }
    now rewrite E3, Ef.
Qed.

(** The history [5.0, 2.5, 3.0, 3.5] is classified STABLE although its first
    entry lies outside the range. *)
Lemma stable_rule_witness :
  let h := [5.0; 2.5; 3.0; 3.5]%float in
  3 <= length h /\ lastEntry h = Some 3.5%float /\ le 3.5 5 = true
  /\ ~ breakoutConditions h
  /\ (forall v, In v (lastEntries 3 h) -> ge v 2 = true /\ le v 4 = true)
  /\ inStableRange 5.0%float = false
  /\ analyzeHistory h = resultOf STABLE.
Proof.
  cbv zeta.
  assert (Hlen : 3 <= length [5.0; 2.5; 3.0; 3.5]%float) by (decide_le).
  assert (Hnb : ~ breakoutConditions [5.0; 2.5; 3.0; 3.5]%float).
  { intros [H5 _]. cbn in H5. do 4 apply le_S_n in H5. inversion H5. }
  assert (Hst : forall v, In v (lastEntries 3 [5.0; 2.5; 3.0; 3.5]%float) ->
                          ge v 2 = true /\ le v 4 = true).
  { intros v [<-|[<-|[<-|[]]]]; split; reflexivity. }
  split; [exact Hlen|]. split; [reflexivity|]. split; [reflexivity|].
  split; [exact Hnb|]. split; [exact Hst|]. split; [reflexivity|].
  exact (stable_rule [5.0; 2.5; 3.0; 3.5]%float 3.5%float Hlen eq_refl eq_refl Hnb Hst).
Defined.

(** C5. For every history of at least two entries on which none of the
    three rules fires (the last entry is at most 5.0; there are fewer than
    five entries or one of the two counts of BREAKOUT falls short; there are
    fewer than three entries or one of the last three lies outside the
    range from 2.0 to 4.0), [analyzeHistory] returns LOW. *)
Theorem low_fallback (h : list number) (x : number) :
  2 <= length h ->
  lastEntry h = Some x ->
  le x 5 = true ->
  length h < 5 \/ count below2 h < 5 \/ count atMost1_20 h < 2 ->
  length h < 3 \/ (exists v, In v (lastEntries 3 h) /\ inStableRange v = false) ->
  analyzeHistory h = resultOf LOW.
Proof.
  intros H Hx Hle Hnb Hns. rewrite (analyzeHistory_rules h H).
  unfold classifyByRules. rewrite Hx, (le_not_gt x 5%float Hle).
  assert (Eb : (5 <=? length h) && (5 <=? count below2 h)
               && (2 <=? count atMost1_20 h) = false).
  { destruct Hnb as [Hn|[Hn|Hn]]; apply Nat.leb_gt in Hn; rewrite Hn;
      now rewrite ?andb_false_r. }
  assert (Es : (3 <=? length h) && forallb inStableRange (lastEntries 3 h) = false).
  { destruct Hns as [Hn|[v [Hin Hv]]].
    - apply Nat.leb_gt in Hn. now rewrite Hn.
    - apply andb_false_iff. right.
      destruct (forallb inStableRange (lastEntries 3 h)) eqn:Ef; [|reflexivity].
      rewrite forallb_forall in Ef. rewrite (Ef v Hin) in Hv. discriminate. }
  now rewrite Eb, Es.
Qed.

Lemma low_fallback_witness :
  let h := [1.0; 1.0]%float in
  2 <= length h /\ lastEntry h = Some 1.0%float /\ le 1.0 5 = true
  /\ (length h < 5 \/ count below2 h < 5 \/ count atMost1_20 h < 2)
  /\ (length h < 3 \/ (exists v, In v (lastEntries 3 h) /\ inStableRange v = false))
  /\ analyzeHistory h = resultOf LOW.
Proof.
  cbv zeta.
  split; [apply le_n|]. split; [reflexivity|]. split; [reflexivity|].
  split; [left; decide_le|]. split; [left; decide_le|].
  apply (low_fallback [1.0; 1.0]%float 1.0%float);
    [apply le_n|reflexivity|reflexivity
     |left; decide_le|left; decide_le].
Defined.

(** C9. Below its precondition [analyzeHistory] does not fail: for every
    history of fewer than two entries it returns LOW, and it does so before
    it looks at the last entry, so that a single entry above 5.0 gives LOW
    and not COOLDOWN. *)
Theorem analyzeHistory_below_precondition (h : list number) :
  length h < 2 -> analyzeHistory h = resultOf LOW.
Proof.
  exact (analyzeHistory_short h).
Qed.

Lemma analyzeHistory_below_precondition_witness :
  length [6.0]%float < 2 /\ lastEntry [6.0]%float = Some 6.0%float
  /\ gt 6.0 5 = true
  /\ analyzeHistory [6.0]%float = resultOf LOW.
Proof.
  split; [apply le_n|]. split; [reflexivity|]. split; [reflexivity|].
  apply (analyzeHistory_below_precondition [6.0]%float). apply le_n.
Defined.

(** C10. The length guard of the BREAKOUT rule is redundant: the variant of
    [analyzeHistory] that decides BREAKOUT from the two counts alone returns
    the same result on every history, because five entries below 2.0 are
    five entries. *)
Theorem breakout_length_guard_redundant (h : list number) :
  analyzeHistory_countsOnly h = analyzeHistory h.
Proof.
  unfold analyzeHistory_countsOnly, analyzeHistory.
  destruct (length h <? 2); [reflexivity|].
  destruct (gt _ _); [reflexivity|].
  cbn [PREDICTION_RULES BREAKOUT_THRESHOLD_COUNT_LT_2X
       BREAKOUT_THRESHOLD_COUNT_LTE_1_2X].
  destruct (Nat.leb_spec 5 (length h)) as [H5|H5]; [reflexivity|].
  rewrite (count_filter (fun val => lt val 2) h).
  pose proof (count_le_length (fun val => lt val 2) h) as Hc.
  destruct (Nat.leb_spec 5 (count (fun val => lt val 2) h)); [lia|reflexivity].
Qed.

(** ** The validation of the input *)

(** C6. When [validateAndParseInput] succeeds, the numbers it returns are the
    pieces of the input, parsed, in the order of the input; the pieces are
    what is left between the commas once trimmed, the empty ones left out.
    A trailing or a repeated comma makes no difference. *)
Theorem validate_returns_parsed_pieces (render : AppState) (input : jsstring)
  (st : AppState) (numbers : list number) :
  fst (validateAndParseInput render input st) = Some numbers ->
  (exists ps, PiecesOf input ps /\ Forall (fun p => p <> []) ps
              /\ numbers = map parseFloat ps)
  /\ fst (validateAndParseInput render (input ++ [comma]) st) = Some numbers
  /\ (forall s1 s2, input = s1 ++ comma :: s2 ->
        fst (validateAndParseInput render (s1 ++ comma :: comma :: s2) st)
        = Some numbers).
Proof.
  intros H. split; [|split].
  - rewrite validateAndParseInput_firstTriggered in H.
    destruct (firstTriggered _ _); [discriminate|]. cbn in H. injection H as <-.
    exists (pieces input). split; [apply pieces_PiecesOf|].
    split; [|reflexivity]. apply (PiecesOf_nonempty input), pieces_PiecesOf.
  - now rewrite (validateAndParseInput_pieces render input) by apply pieces_trailing_comma.
  - intros s1 s2 ->.
    now rewrite (validateAndParseInput_pieces render (s1 ++ comma :: s2))
      by apply pieces_repeated_comma.
Qed.

(** The input ["1.0, , 2.0,"] with two results required gives [1.0, 2.0],
    and so do ["1.0, , 2.0,,"] and ["1.0,, , 2.0,"]. *)
Lemma validate_returns_parsed_pieces_witness :
  let input := str "1.0, , 2.0," in
  let render := withInput 2 input in
  let numbers := [1.0; 2.0]%float in
  fst (validateAndParseInput render input initialState) = Some numbers
  /\ (exists ps, PiecesOf input ps /\ Forall (fun p => p <> []) ps
                 /\ numbers = map parseFloat ps)
  /\ fst (validateAndParseInput render (str "1.0, , 2.0,,") initialState)
     = Some numbers
  /\ fst (validateAndParseInput render (str "1.0,, , 2.0,") initialState)
     = Some numbers.
Proof.
  cbv zeta.
  assert (H : fst (validateAndParseInput (withInput 2 (str "1.0, , 2.0,"))
                     (str "1.0, , 2.0,") initialState)
              = Some [1.0; 2.0]%float) by (vm_compute; reflexivity).
  destruct (validate_returns_parsed_pieces _ _ _ _ H) as (Hps & Htrail & Hrep).
  split; [exact H|]. split; [exact Hps|]. split; [exact Htrail|].
  exact (Hrep (str "1.0") (str " , 2.0,") eq_refl).
Defined.

(** C7. The failures are checked in the order WrongCount, NotANumber,
    NegativeValue, ZeroValue.  When an input triggers some of them, the one
    reported is the first triggered in that order (it is triggered, none
    before it is, and its message is the message of no other failure);
    nothing is returned, and the click that submitted the input leaves no
    prediction. *)
Theorem first_triggered_error_reported (render : AppState) (input : jsstring)
  (e : ValidationError) :
  firstTriggered (selectedHistoryLength render) input = Some e ->
  let n := selectedHistoryLength render in
  (triggers n input e = true
   /\ forall e', priority e' < priority e -> triggers n input e' = false)
  /\ (forall st,
        validateAndParseInput render input st
        = (None, snd (setError (Some (errorMessage n e)) st)))
  /\ (forall e', errorMessage n e' = errorMessage n e -> e' = e)
  /\ (historyInput render = input ->
        prediction (predict render) = None
        /\ error (predict render) = Some (errorMessage n e)).
Proof.
  intros H n. split; [exact (firstTriggered_first n input e H)|].
  split; [|split].
  - intros st. rewrite validateAndParseInput_firstTriggered. fold n in H |- *.
    now rewrite H.
  - intros e'. apply errorMessage_injective.
  - intros <-. unfold predict, handlePredict_timeout, bind.
    rewrite validateAndParseInput_firstTriggered. fold n in H |- *.
    rewrite H. split; reflexivity.
Qed.

(** With three results required, ["abc,-1,0"] triggers NotANumber,
    NegativeValue and ZeroValue: NotANumber is reported. *)
Lemma first_triggered_error_reported_witness :
  let input := str "abc,-1,0" in
  let render := withInput 3 input in
  map (triggers 3 input) [WrongCount; NotANumber; NegativeValue; ZeroValue]
  = [false; true; true; true]
  /\ firstTriggered (selectedHistoryLength render) input = Some NotANumber
  /\ (triggers 3 input NotANumber = true
      /\ forall e', priority e' < priority NotANumber -> triggers 3 input e' = false)
  /\ (forall st,
        validateAndParseInput render input st
        = (None, snd (setError (Some notANumberMessage) st)))
  /\ (forall e', errorMessage 3 e' = notANumberMessage -> e' = NotANumber)
  /\ prediction (predict render) = None
  /\ error (predict render) = Some notANumberMessage.
Proof.
  cbv zeta.
  assert (H : firstTriggered (selectedHistoryLength (withInput 3 (str "abc,-1,0")))
                (str "abc,-1,0") = Some NotANumber) by (vm_compute; reflexivity).
  destruct (first_triggered_error_reported _ _ _ H) as (Hfirst & Hret & Hmsg & Hclick).
  split; [vm_compute; reflexivity|]. split; [exact H|].
  split; [exact Hfirst|]. split; [exact Hret|]. split; [exact Hmsg|].
  exact (Hclick eq_refl).
Defined.

(** One input for each outcome of the validation. *)
Example firstTriggered_examples :
  map (fun '(n, s) => firstTriggered n (str s))
    [(2, "abc,-1,0"); (3, "abc,-1,0"); (2, "-1,0"); (2, "1,0"); (2, "1,-0");
     (2, "1,2")]%string
  = [Some WrongCount; Some NotANumber; Some NegativeValue; Some ZeroValue;
     Some ZeroValue; None].
Proof. vm_compute. reflexivity. Qed.

(** C8. When [validateAndParseInput] succeeds, it returns exactly as many
    numbers as required, and each of them is a number (not NaN) greater
    than 0. *)
Theorem validated_history_invariant (render : AppState) (input : jsstring)
  (st : AppState) (numbers : list number) :
  fst (validateAndParseInput render input st) = Some numbers ->
  length numbers = selectedHistoryLength render
  /\ Forall (fun v => gt v 0 = true /\ isNaN v = false) numbers.
Proof.
  rewrite validateAndParseInput_firstTriggered.
  destruct (firstTriggered _ _) eqn:E; [discriminate|]. cbn. intros [= <-].
  pose proof (firstTriggered_none _ _ E) as Hn.
  pose proof (Hn WrongCount) as Hc. pose proof (Hn NotANumber) as Hnan.
  pose proof (Hn NegativeValue) as Hneg. pose proof (Hn ZeroValue) as Hz.
  cbn [triggers] in Hc, Hnan, Hneg, Hz. split.
  - rewrite length_map. apply negb_false_iff in Hc. now apply Nat.eqb_eq.
  - apply Forall_map, Forall_forall. intros p Hp.
    pose proof (existsb_false _ _ Hnan p Hp) as Hp1.
    pose proof (existsb_false _ _ Hneg p Hp) as Hp2.
    pose proof (existsb_false _ _ Hz p Hp) as Hp3.
    cbn beta in Hp1, Hp2, Hp3. split; [|exact Hp1].
    now apply positive_when_checked.
Qed.

Lemma validated_history_invariant_witness :
  let input := str "1.0, , 2.0," in
  let numbers := [1.0; 2.0]%float in
  fst (validateAndParseInput (withInput 2 input) input initialState) = Some numbers
  /\ (length numbers = 2
      /\ Forall (fun v => gt v 0 = true /\ isNaN v = false) numbers).
Proof.
  cbv zeta. split; [vm_compute; reflexivity|].
  apply (validated_history_invariant (withInput 2 (str "1.0, , 2.0,"))
           (str "1.0, , 2.0,") initialState [1.0; 2.0]%float).
  vm_compute. reflexivity.
Defined.

(** ** What a category returned by [analyzeHistory] tells about the history *)

Lemma analyzeHistory_category_cases (h : list number) :
  (length h < 2 /\ category (analyzeHistory h) = LOW)
  \/ (2 <= length h /\ category (analyzeHistory h) = classifyByRules h).
Proof.
  destruct (Nat.lt_ge_cases (length h) 2) as [H|H].
  - left. split; [exact H|]. now rewrite analyzeHistory_short.
  - right. split; [exact H|]. now rewrite analyzeHistory_rules.
Qed.

Lemma breakout_test (h : list number) :
  (5 <=? length h) && (5 <=? count below2 h) && (2 <=? count atMost1_20 h) = true
  <-> breakoutConditions h.
Proof.
  unfold breakoutConditions. rewrite !andb_true_iff, !Nat.leb_le. tauto.
Qed.

(** A COOLDOWN result is returned only for a history of at least two
    entries whose last entry is greater than 5. *)
Theorem cooldown_only_after_high_last (h : list number) :
  category (analyzeHistory h) = COOLDOWN ->
  2 <= length h /\ exists x, lastEntry h = Some x /\ gt x 5 = true.
Proof.
  destruct (analyzeHistory_category_cases h) as [[_ ->]|[H ->]]; [intros [=]|].
  unfold classifyByRules. intros Hc. split; [exact H|].
  destruct (lastEntry h) as [x|].
  - exists x. split; [reflexivity|].
    destruct (gt x 5); [reflexivity|].
    destruct (_ && _); [discriminate|]. destruct (_ && _); discriminate.
  - destruct (_ && _); [discriminate|]. destruct (_ && _); discriminate.
Qed.

Lemma cooldown_only_after_high_last_witness :
  let h := [1.0; 7.5]%float in
  category (analyzeHistory h) = COOLDOWN
  /\ 2 <= length h /\ exists x, lastEntry h = Some x /\ gt x 5 = true.
Proof.
  cbv zeta. split; [reflexivity|].
  exact (cooldown_only_after_high_last [1.0; 7.5]%float eq_refl).
Defined.

(** A BREAKOUT result is returned only when the history has at least five
    entries, at least five of them below 2 and at least two of them at most
    1.20, and its last entry is not greater than 5. *)
Theorem breakout_only_when_counts_met (h : list number) :
  category (analyzeHistory h) = BREAKOUT ->
  breakoutConditions h
  /\ exists x, lastEntry h = Some x /\ gt x 5 = false.
Proof.
  destruct (analyzeHistory_category_cases h) as [[_ ->]|[H ->]]; [intros [=]|].
  unfold classifyByRules. intros Hc.
  destruct (lastEntry_nonempty h) as [x Hx]; [lia|]. rewrite Hx in Hc.
  destruct (gt x 5) eqn:Hgt; [discriminate|].
  destruct ((5 <=? length h) && (5 <=? count below2 h) && (2 <=? count atMost1_20 h))
    eqn:Eb.
  - split; [now apply breakout_test|]. now exists x.
  - destruct ((3 <=? length h) && forallb inStableRange (lastEntries 3 h));
      discriminate.
Qed.

Lemma breakout_only_when_counts_met_witness :
  let h := [1.0; 1.1; 1.5; 1.9; 1.3; 1.2]%float in
  category (analyzeHistory h) = BREAKOUT
  /\ breakoutConditions h
  /\ exists x, lastEntry h = Some x /\ gt x 5 = false.
Proof.
  cbv zeta. split; [reflexivity|].
  exact (breakout_only_when_counts_met [1.0; 1.1; 1.5; 1.9; 1.3; 1.2]%float eq_refl).
Defined.

(** A STABLE result is returned only when the history has at least three
    entries, its last three entries lie between 2 and 4, and the conditions
    of BREAKOUT do not all hold. *)
Theorem stable_only_when_last_three_in_range (h : list number) :
  category (analyzeHistory h) = STABLE ->
  3 <= length h
  /\ (forall v, In v (lastEntries 3 h) -> ge v 2 = true /\ le v 4 = true)
  /\ ~ breakoutConditions h.
Proof.
  destruct (analyzeHistory_category_cases h) as [[_ ->]|[H ->]]; [intros [=]|].
  unfold classifyByRules. intros Hc.
  destruct (match lastEntry h with Some x => gt x 5 | None => false end);
    [discriminate|].
  destruct ((5 <=? length h) && (5 <=? count below2 h) && (2 <=? count atMost1_20 h))
    eqn:Eb; [discriminate|].
  destruct ((3 <=? length h) && forallb inStableRange (lastEntries 3 h)) eqn:Es;
    [|discriminate].
  apply andb_prop in Es as [E3 Ef]. apply Nat.leb_le in E3.
  split; [exact E3|]. split.
  - intros v Hv. rewrite forallb_forall in Ef. specialize (Ef v Hv).
    unfold inStableRange in Ef. now apply andb_prop in Ef.
  - intros Hb. apply breakout_test in Hb. congruence.
Qed.

Lemma stable_only_when_last_three_in_range_witness :
  let h := [9.0; 2.0; 4.0; 3.0]%float in
  category (analyzeHistory h) = STABLE
  /\ 3 <= length h
  /\ (forall v, In v (lastEntries 3 h) -> ge v 2 = true /\ le v 4 = true)
  /\ ~ breakoutConditions h.
Proof.
  cbv zeta. split; [reflexivity|].
  exact (stable_only_when_last_three_in_range [9.0; 2.0; 4.0; 3.0]%float eq_refl).
Defined.

(** ** Which rules can hold together *)


Lemma count_app {A} (p : A -> bool) (l1 l2 : list A) :
  count p (l1 ++ l2) = count p l1 + count p l2.
Proof.
  induction l1 as [|x l1 IH]; cbn; [reflexivity|]. rewrite IH. lia.
Qed.

Lemma count_none {A} (p : A -> bool) (l : list A) :
  (forall x, In x l -> p x = false) -> count p l = 0.
Proof.
  induction l as [|x l IH]; cbn; [reflexivity|]. intros H.
  rewrite (H x) by now left. apply IH. intros y Hy. apply H. now right.
Qed.




(** On a history of three to seven entries (the form offers 2, 3 and 6) the
    conditions of BREAKOUT and of STABLE never hold together: three entries
    of at least 2 leave fewer than five entries below 2. *)
Theorem stable_range_excludes_breakout (h : list number) :
  3 <= length h <= 7 ->
  (forall v, In v (lastEntries 3 h) -> ge v 2 = true /\ le v 4 = true) ->
  ~ breakoutConditions h.
Proof.
  intros Hlen Hst (_ & Hc & _).
  destruct (lastEntries_shape 3 h) as [pre Hpre]; [lia|].
  assert (Hl : length h = length pre + 3).
  { rewrite Hpre at 1. rewrite length_app, lastEntries_length by lia. reflexivity. }
  rewrite Hpre, count_app in Hc.
  rewrite (count_none below2 (lastEntries 3 h)) in Hc.
  - pose proof (count_le_length below2 pre). lia.
  - intros v Hv. destruct (Hst v Hv) as [Hge _]. unfold below2.
    exact (le_not_gt 2%float v Hge).
Qed.

Lemma stable_range_excludes_breakout_witness :
  let h := [1.0; 1.0; 1.0; 2.0; 3.0; 4.0]%float in
  3 <= length h <= 7
  /\ (forall v, In v (lastEntries 3 h) -> ge v 2 = true /\ le v 4 = true)
  /\ ~ breakoutConditions h.
Proof.
  cbv zeta.
  assert (Hlen : 3 <= length [1.0; 1.0; 1.0; 2.0; 3.0; 4.0]%float <= 7)
    by (split; decide_le).
  assert (Hst : forall v, In v (lastEntries 3 [1.0; 1.0; 1.0; 2.0; 3.0; 4.0]%float) ->
                          ge v 2 = true /\ le v 4 = true).
  { intros v [<-|[<-|[<-|[]]]]; split; reflexivity. }
  split; [exact Hlen|]. split; [exact Hst|].
  exact (stable_range_excludes_breakout _ Hlen Hst).
Defined.

(** From eight entries on both can hold, and BREAKOUT is the result. *)
Example breakout_over_stable :
  let h := [1.0; 1.0; 1.5; 1.5; 1.5; 2.0; 3.0; 4.0]%float in
  breakoutConditions h
  /\ forallb inStableRange (lastEntries 3 h) = true
  /\ analyzeHistory h = resultOf BREAKOUT.
Proof.
  cbv zeta. split; [repeat split; decide_le|]. split; reflexivity.
Qed.

(** ** The order of the entries *)

Lemma count_Permutation {A} (p : A -> bool) (l l' : list A) :
  Permutation l l' -> count p l = count p l'.
Proof.
  induction 1; cbn; lia.
Qed.

Lemma lastEntry_suffix (pre suf : list number) :
  1 <= length suf -> lastEntry (pre ++ suf) = lastEntry suf.
Proof.
  intros H. destruct (lastEntry_nonempty suf H) as [x Hx].
  destruct (lastEntry_shape suf x Hx) as [s ->].
  now rewrite app_assoc, !lastEntry_app.
Qed.

Lemma lastEntries_suffix (n : nat) (pre suf : list number) :
  n <= length suf -> lastEntries n (pre ++ suf) = lastEntries n suf.
Proof.
  intros H. unfold lastEntries. rewrite rev_app_distr, firstn_app, length_rev.
  replace (n - length suf) with 0 by lia. now rewrite firstn_O, app_nil_r.
Qed.

(** Only the last three entries are looked at in order: permuting the
    entries before them changes no result. *)
Theorem analyzeHistory_order_of_earlier_entries (pre pre' suf : list number) :
  Permutation pre pre' ->
  3 <= length suf ->
  analyzeHistory (pre ++ suf) = analyzeHistory (pre' ++ suf).
Proof.
  intros Hp Hs.
  assert (Hl : length (pre ++ suf) = length (pre' ++ suf))
    by (rewrite !length_app, (Permutation_length Hp); reflexivity).
  assert (H2 : 2 <= length (pre ++ suf)) by (rewrite length_app; lia).
  rewrite !analyzeHistory_rules by lia. f_equal. unfold classifyByRules.
  rewrite !lastEntry_suffix, !lastEntries_suffix, !count_app, Hl by lia.
  now rewrite (count_Permutation below2 pre pre' Hp),
    (count_Permutation atMost1_20 pre pre' Hp).
Qed.

Lemma analyzeHistory_order_of_earlier_entries_witness :
  let suf := [2.5; 3.0; 3.5]%float in
  Permutation [1.0; 9.0; 1.1]%float [9.0; 1.1; 1.0]%float
  /\ 3 <= length suf
  /\ analyzeHistory ([1.0; 9.0; 1.1]%float ++ suf)
     = analyzeHistory ([9.0; 1.1; 1.0]%float ++ suf).
Proof.
  cbv zeta.
  assert (Hp : Permutation [1.0; 9.0; 1.1]%float [9.0; 1.1; 1.0]%float).
  { apply (Permutation_cons_app [9.0; 1.1]%float []). apply Permutation_refl. }
  split; [exact Hp|]. split; [apply le_n|].
  exact (analyzeHistory_order_of_earlier_entries _ _ [2.5; 3.0; 3.5]%float Hp (le_n 3)).
Defined.

(** ** More on the validation *)

(** [validateAndParseInput] writes the state variable [error] and no other,
    and leaves it null exactly when it returns the numbers. *)
Theorem validateAndParseInput_writes_error_only (render : AppState)
  (input : jsstring) (st : AppState) :
  let result := fst (validateAndParseInput render input st) in
  let st' := snd (validateAndParseInput render input st) in
  historyInput st' = historyInput st
  /\ prediction st' = prediction st
  /\ isLoading st' = isLoading st
  /\ selectedHistoryLength st' = selectedHistoryLength st
  /\ showFeedbackOptions st' = showFeedbackOptions st
  /\ lastPredictionForFeedback st' = lastPredictionForFeedback st
  /\ feedbackMessage st' = feedbackMessage st
  /\ isNull (error st') = negb (isNull result)
  /\ truthy (error st') = isNull result.
Proof.
  cbv zeta. rewrite validateAndParseInput_firstTriggered.
  destruct (firstTriggered (selectedHistoryLength render) input) as [e|];
    cbn; repeat split.
  now destruct e.
Qed.

Lemma gt_0_passes_checks (v : number) :
  gt v 0 = true -> isNaN v = false /\ lt v 0 = false /\ strictEq v 0 = false.
Proof.
  unfold isNaN, is_nan, lt, gt, strictEq.
  rewrite !FloatAxioms.ltb_spec, !FloatAxioms.eqb_spec.
  change (Prim2SF 0) with (S754_zero false).
  destruct (Prim2SF v) as [s|s| |s m e]; try destruct s; cbn; try discriminate;
    intros _; repeat split.
  unfold SFeqb. cbn [SFcompare].
  now rewrite Z.compare_refl, Pos.compare_cont_spec, Pos.compare_refl.
Qed.

Lemma existsb_none {A} (f : A -> bool) (l : list A) :
  (forall x, In x l -> f x = false) -> existsb f l = false.
Proof.
  induction l as [|x l IH]; cbn; [reflexivity|]. intros H.
  rewrite (H x) by now left. apply IH. intros y Hy. apply H. now right.
Qed.

(** The validation accepts every input that has the required number of
    pieces, each of them read by [parseFloat] as a number greater than 0: it
    returns these numbers and clears the error. *)
Theorem validation_accepts_positive_pieces (render : AppState) (input : jsstring)
  (st : AppState) :
  length (pieces input) = selectedHistoryLength render ->
  (forall p, In p (pieces input) -> gt (parseFloat p) 0 = true) ->
  validateAndParseInput render input st
  = (Some (map parseFloat (pieces input)), snd (setError None st)).
Proof.
  intros Hlen Hpos. rewrite validateAndParseInput_firstTriggered.
  unfold firstTriggered. cbn [find triggers].
  rewrite Hlen, Nat.eqb_refl. cbn [negb].
  rewrite !existsb_none; [reflexivity| | |];
    intros p Hp; now destruct (gt_0_passes_checks _ (Hpos p Hp)) as (? & ? & ?).
Qed.

Lemma validation_accepts_positive_pieces_witness :
  let input := str " 1.5 ,2" in
  let render := withInput 2 input in
  length (pieces input) = selectedHistoryLength render
  /\ (forall p, In p (pieces input) -> gt (parseFloat p) 0 = true)
  /\ validateAndParseInput render input initialState
     = (Some [1.5; 2.0]%float, snd (setError None initialState)).
Proof.
  cbv zeta.
  assert (Hpos : forall p, In p (pieces (str " 1.5 ,2")) ->
                           gt (parseFloat p) 0 = true).
  { intros p Hp. vm_compute in Hp. destruct Hp as [<-|[<-|[]]]; vm_compute; reflexivity. }
  split; [reflexivity|]. split; [exact Hpos|].
  exact (validation_accepts_positive_pieces (withInput 2 (str " 1.5 ,2"))
           (str " 1.5 ,2") initialState eq_refl Hpos).
Defined.

Lemma whiteSpace_without_comma (s : jsstring) :
  forallb isWhiteSpace s = true -> ~ In comma s.
Proof.
  intros H Hin. rewrite forallb_forall in H. specialize (H comma Hin).
  discriminate.
Qed.

Lemma trimOf_padded (s t l r : jsstring) :
  forallb isWhiteSpace l = true -> forallb isWhiteSpace r = true ->
  trimOf s t -> trimOf (l ++ s ++ r) t.
Proof.
  intros Hl Hr (l' & r' & -> & Hl' & Hr' & Hs & He).
  exists (l ++ l'), (r' ++ r). repeat split; try assumption.
  - now rewrite <- !app_assoc.
  - rewrite forallb_app. now rewrite Hl, Hl'.
  - rewrite forallb_app. now rewrite Hr, Hr'.
Qed.

Lemma PiecesOf_padded_left (l input : jsstring) (ps : list jsstring) :
  forallb isWhiteSpace l = true -> PiecesOf input ps -> PiecesOf (l ++ input) ps.
Proof.
  intros Hl H. pose proof (whiteSpace_without_comma l Hl) as Hn.
  destruct H as [s t Hs Ht|s t rest ps Hs Ht Hrest].
  - apply PiecesOf_last.
    + intros Hin. apply in_app_or in Hin. tauto.
    + rewrite <- (app_nil_r s). now apply trimOf_padded.
  - rewrite app_assoc. apply PiecesOf_comma; [| |exact Hrest].
    + intros Hin. apply in_app_or in Hin. tauto.
    + rewrite <- (app_nil_r s). now apply trimOf_padded.
Qed.

Lemma PiecesOf_padded_right (r input : jsstring) (ps : list jsstring) :
  forallb isWhiteSpace r = true -> PiecesOf input ps -> PiecesOf (input ++ r) ps.
Proof.
  intros Hr H. pose proof (whiteSpace_without_comma r Hr) as Hn.
  induction H as [s t Hs Ht|s t rest ps Hs Ht _ IH].
  - apply PiecesOf_last.
    + intros Hin. apply in_app_or in Hin. tauto.
    + now apply (trimOf_padded s t [] r).
  - rewrite <- app_assoc. cbn [app]. now apply PiecesOf_comma.
Qed.

Lemma pieces_padded (l r input : jsstring) :
  forallb isWhiteSpace l = true -> forallb isWhiteSpace r = true ->
  pieces (l ++ input ++ r) = pieces input.
Proof.
  intros Hl Hr. symmetry. apply PiecesOf_functional.
  apply PiecesOf_padded_left; [exact Hl|].
  apply PiecesOf_padded_right; [exact Hr|]. apply pieces_PiecesOf.
Qed.

(** White space before and after the input changes nothing to the
    validation. *)
Theorem validation_ignores_surrounding_white_space (render : AppState)
  (input l r : jsstring) (st : AppState) :
  forallb isWhiteSpace l = true ->
  forallb isWhiteSpace r = true ->
  validateAndParseInput render (l ++ input ++ r) st
  = validateAndParseInput render input st.
Proof.
  intros Hl Hr. apply validateAndParseInput_pieces. now apply pieces_padded.
Qed.

Lemma validation_ignores_surrounding_white_space_witness :
  let render := withInput 2 [] in
  forallb isWhiteSpace (str "  ") = true
  /\ forallb isWhiteSpace [9%N; 160%N] = true
  /\ validateAndParseInput render (str "  " ++ str "1,2" ++ [9%N; 160%N]) initialState
     = validateAndParseInput render (str "1,2") initialState.
Proof.
  cbv zeta. split; [reflexivity|]. split; [reflexivity|].
  exact (validation_ignores_surrounding_white_space (withInput 2 []) (str "1,2")
           (str "  ") [9%N; 160%N] initialState eq_refl eq_refl).
Defined.

Lemma trim_whiteSpace (s : jsstring) :
  forallb isWhiteSpace s = true -> trim s = [].
Proof.
  intros H. symmetry. apply trimOf_unique. exists s, [].
  repeat split; [now rewrite app_nil_r|exact H].
Qed.

Lemma trim_empty_whiteSpace (s : jsstring) :
  trim s = [] -> forallb isWhiteSpace s = true.
Proof.
  intros H. destruct (trim_trimOf s) as (l & r & Hs & Hl & Hr & _).
  rewrite H in Hs. cbn [app] in Hs. rewrite Hs, forallb_app. now rewrite Hl, Hr.
Qed.

Lemma pieces_of_commas_and_whiteSpace (input : jsstring) :
  Forall (fun c => c = comma \/ isWhiteSpace c = true) input ->
  pieces input = [].
Proof.
  remember (length input) as n eqn:En.
  revert input En. induction n as [n IH] using lt_wf_ind. intros input -> Hall.
  assert (Hfree : forall s, Forall (fun c => c = comma \/ isWhiteSpace c = true) s ->
                            ~ In comma s -> pieces s = []).
  { intros s Hs Hn. rewrite (pieces_without_comma s Hn), trim_whiteSpace;
      [reflexivity|].
    apply forallb_forall. intros c Hc. rewrite Forall_forall in Hs.
    destruct (Hs c Hc) as [->|Hw]; [tauto|exact Hw]. }
  destruct (first_comma input) as [Hn|(s1 & s2 & -> & Hn)]; [now apply Hfree|].
  apply Forall_app in Hall as [H1 H2]. apply Forall_cons_iff in H2 as [_ H2].
  rewrite pieces_at_comma, (Hfree s1 H1 Hn). cbn [app].
  apply (IH (length s2)); [|reflexivity|exact H2].
  rewrite length_app. cbn. lia.
Qed.

(** An input made of commas and white space only (the empty input too) has
    no piece: whenever at least one result is required, the validation
    reports the wrong count. *)
Theorem blank_input_reports_wrong_count (render : AppState) (input : jsstring)
  (st : AppState) :
  Forall (fun c => c = comma \/ isWhiteSpace c = true) input ->
  selectedHistoryLength render <> 0 ->
  validateAndParseInput render input st
  = (None,
     snd (setError (Some (wrongCountMessage (selectedHistoryLength render))) st)).
Proof.
  intros Hall Hn. rewrite validateAndParseInput_firstTriggered.
  unfold firstTriggered. cbn [find triggers].
  rewrite (pieces_of_commas_and_whiteSpace input Hall). cbn [length].
  destruct (selectedHistoryLength render); [tauto|reflexivity].
Qed.

Lemma blank_input_reports_wrong_count_witness :
  let input := str " , ,, " in
  let render := withInput 3 input in
  Forall (fun c => c = comma \/ isWhiteSpace c = true) input
  /\ selectedHistoryLength render <> 0
  /\ validateAndParseInput render input initialState
     = (None, snd (setError (Some (wrongCountMessage 3)) initialState)).
Proof.
  cbv zeta.
  assert (Hall : Forall (fun c => c = comma \/ isWhiteSpace c = true) (str " , ,, ")).
  { repeat (constructor; [first [left; reflexivity|right; reflexivity]|]).
    constructor. }
  assert (Hn : selectedHistoryLength (withInput 3 (str " , ,, ")) <> 0)
    by discriminate.
  split; [exact Hall|]. split; [exact Hn|].
  exact (blank_input_reports_wrong_count (withInput 3 (str " , ,, ")) (str " , ,, ")
           initialState Hall Hn).
Defined.

(** The submit button is disabled exactly while loading and when the input
    holds nothing but white space. *)
Theorem submit_disabled_when_loading_or_blank (st : AppState) :
  submitDisabled st = isLoading st || forallb isWhiteSpace (historyInput st).
Proof.
  unfold submitDisabled. f_equal.
  destruct (forallb isWhiteSpace (historyInput st)) eqn:E.
  - now rewrite trim_whiteSpace.
  - destruct (trim (historyInput st)) eqn:Et; [|reflexivity].
    apply trim_empty_whiteSpace in Et. congruence.
Qed.

(** ** The pages reached from the initial one *)

Lemma stringEq_eq (s1 s2 : jsstring) : stringEq s1 s2 = true -> s1 = s2.
Proof.
  revert s2. induction s1 as [|a s1 IH]; intros [|b s2]; cbn;
    try discriminate; [reflexivity|].
  intros H. apply andb_prop in H as [Hab Hs]. apply N.eqb_eq in Hab.
  now rewrite Hab, (IH s2 Hs).
Qed.

Lemma singleton_split {A} (x y : A) (l1 l2 : list A) :
  [x] = l1 ++ y :: l2 -> l1 = [] /\ x = y /\ l2 = [].
Proof.
  destruct l1 as [|a l1]; cbn; intros H; injection H.
  - intros <- <-. repeat split.
  - intros H' _. now destruct l1.
Qed.

Lemma pending_after_fire (ts : list Timer) (i : nat) (t : Timer) :
  nth_error ts i = Some t ->
  filter isPredictTimer ts
  = filter isPredictTimer (firstn i ts)
    ++ (if isPredictTimer t then [t] else [])
    ++ filter isPredictTimer (skipn (S i) ts).
Proof.
  intros H. destruct (nth_error_split ts i H) as (l1 & l2 & -> & <-).
  rewrite firstn_app, Nat.sub_diag, firstn_all. cbn [firstn].
  rewrite app_nil_r.
  replace (skipn (S (length l1)) (l1 ++ t :: l2)) with l2.
  - rewrite filter_app. cbn [filter]. now destruct (isPredictTimer t).
  - change (t :: l2) with ([t] ++ l2). rewrite app_assoc.
    rewrite skipn_app, skipn_all2 by (rewrite length_app; cbn; lia).
    rewrite length_app. cbn [length app].
    replace (S (length l1) - (length l1 + 1)) with 0 by lia. reflexivity.
Qed.

(** Goals closed by a hypothesis or by a clash of constructors. *)
Ltac settle :=
  try assumption; try (intros; discriminate); try (intros; congruence).

Lemma initialPage_invariant : pageInvariant initialPage.
Proof.
  split; [cbn; tauto|]. split; [|reflexivity].
  repeat split; cbn; try discriminate.
Qed.

(** Running the setters of a handler. *)
Ltac run_setters :=
  cbn [appState pending bind ret snd fst
       setHistoryInput setSelectedHistoryLength setPrediction setError
       setIsLoading setShowFeedbackOptions setLastPredictionForFeedback
       setFeedbackMessage
       handleHistoryLengthChange handleFeedback handleFeedback_timeout
       historyInputEffect handlePredict fire
       historyInput prediction error isLoading selectedHistoryLength
       showFeedbackOptions lastPredictionForFeedback feedbackMessage] in *.

Lemma handlePredict_timeout_state (render st : AppState) :
  snd (handlePredict_timeout render st)
  = match firstTriggered (selectedHistoryLength render) (historyInput render) with
    | Some e =>
        snd ((setError (Some (errorMessage (selectedHistoryLength render) e)) ;;
              setPrediction None ;;
              setShowFeedbackOptions false ;;
              setIsLoading false) st)
    | None =>
        let result := analyzeHistory (map parseFloat (pieces (historyInput render))) in
        snd ((setError None ;;
              setPrediction (Some result) ;;
              setLastPredictionForFeedback (Some result) ;;
              setShowFeedbackOptions true ;;
              setIsLoading false) st)
    end.
Proof.
  unfold handlePredict_timeout, bind.
  rewrite validateAndParseInput_firstTriggered.
  now destruct (firstTriggered _ _).
Qed.

Lemma react_invariant (e : Event) (p p' : Page) :
  react e p = Some p' -> pageInvariant p -> pageInvariant p'.
Proof.
  destruct p as [st ts].
  unfold pageInvariant, displayedForInput, timersForLoading.
  intros H (Hlen & (Hpred & Herr & Hfb) & Htm).
  cbv beta iota zeta delta [appState pending] in Hlen, Hpred, Herr, Hfb, Htm.
  destruct e as [value|len| |wasCorrect|i];
    cbv beta iota zeta delta [react appState pending] in H.
  - (* typing *)
    unfold inputsDisabled in H. destruct (isLoading st) eqn:El; [discriminate|].
    injection H as <-.
    destruct (stringEq value (historyInput st)) eqn:Es.
    + apply stringEq_eq in Es. subst value. run_setters. rewrite El.
      repeat apply conj; settle.
    + run_setters. rewrite El.
      repeat apply conj; settle.
  - (* choosing a length *)
    unfold inputsDisabled in H. destruct (isLoading st) eqn:El; [discriminate|].
    cbn [orb] in H.
    destruct (existsb (Nat.eqb len) historyLengthOptions) eqn:Eo; [|discriminate].
    remember (stringEq [] (historyInput st)) as unchanged eqn:Eu.
    injection H as <-.
    assert (Hin : In len historyLengthOptions).
    { apply existsb_exists in Eo as (n & Hn & En). apply Nat.eqb_eq in En.
      now subst n. }
    destruct unchanged; run_setters; rewrite El; repeat apply conj; settle.
  - (* submitting *)
    unfold submitDisabled in H. destruct (isLoading st) eqn:El; [discriminate|].
    cbn [orb] in H. destruct (isEmpty (trim (historyInput st))); [discriminate|].
    injection H as <-. run_setters.
    repeat apply conj; settle.
    exists st. rewrite filter_app, Htm. repeat split.
  - (* giving feedback *)
    destruct (showsFeedbackSection st) eqn:Es; [|discriminate]. injection H as <-.
    assert (El : isLoading st = false).
    { unfold showsFeedbackSection in Es. now destruct (isLoading st). }
    rewrite El in Htm. run_setters. rewrite El. repeat apply conj; settle.
    rewrite filter_app, Htm. reflexivity.
  - (* a timer fires *)
    destruct (nth_error ts i) as [t|] eqn:Et; [|discriminate]. injection H as <-.
    pose proof (pending_after_fire ts i t Et) as Hts.
    cbv beta iota delta [appState pending].
    destruct t as [render|]; cbn [isPredictTimer] in Hts.
    + destruct (isLoading st) eqn:El.
      * destruct Htm as ((r0 & Hr0 & Hin & Hsel) & Hp & He & Hs).
        rewrite Hr0 in Hts.
        apply (singleton_split (PredictTimer r0) (PredictTimer render)) in Hts
          as (Ha & [= <-] & Hb).
        match goal with |- context [filter isPredictTimer ?l] =>
          assert (Hrest : filter isPredictTimer l = [])
            by (change (filter isPredictTimer (firstn i ts ++ skipn (S i) ts) = []);
                now rewrite filter_app, Ha, Hb)
        end.
        rewrite Hrest. cbv beta iota delta [fire].
        rewrite handlePredict_timeout_state, Hin, Hsel.
        destruct (firstTriggered (selectedHistoryLength st) (historyInput st))
          as [e|] eqn:Ef; cbv zeta; run_setters.
        -- repeat apply conj; settle.
           intros m [= <-]. now exists e.
        -- repeat apply conj; settle.
           ++ intros r [= <-]. now repeat split.
           ++ intros _. split; [discriminate|reflexivity].
      * rewrite Htm in Hts. symmetry in Hts. apply app_eq_nil in Hts as [_ Hts].
        discriminate.
    + match goal with |- context [filter isPredictTimer ?l] =>
        assert (Hrest : filter isPredictTimer l = filter isPredictTimer ts)
          by (change (filter isPredictTimer (firstn i ts ++ skipn (S i) ts)
                      = filter isPredictTimer ts);
              now rewrite filter_app, Hts)
      end.
      rewrite Hrest. run_setters. repeat apply conj; settle.
Qed.

Lemma reactAll_invariant (es : list Event) (p p' : Page) :
  reactAll es p = Some p' -> pageInvariant p -> pageInvariant p'.
Proof.
  revert p. induction es as [|e es IH]; intros p; cbn [reactAll].
  - now intros [= <-].
  - destruct (react e p) as [q|] eqn:Eq; [|discriminate].
    intros H Hp. apply (IH q H). exact (react_invariant e p q Eq Hp).
Qed.

Lemma reachable_invariant (p : Page) : reachable p -> pageInvariant p.
Proof.
  intros [es H]. exact (reactAll_invariant es _ _ H initialPage_invariant).
Qed.

Lemma analyzeHistory_never_NONE (h : list number) :
  category (analyzeHistory h) <> NONE.
Proof.
  destruct (analyzeHistory_category_cases h) as [[_ ->]|[_ ->]]; [discriminate|].
  unfold classifyByRules.
  destruct (match lastEntry h with Some x => gt x 5 | None => false end);
    [discriminate|].
  destruct (_ && _); [discriminate|]. destruct (_ && _); discriminate.
Qed.



(** A page is reached by running events from the initial page. *)
Ltac reached_by es :=
  exists es; vm_compute; reflexivity.



(** On every page reached from the initial one, a prediction on the page is
    the analysis of the input in the box: that input is valid for the length
    chosen, the prediction is what [analyzeHistory] returns on its numbers,
    its category is not NONE, and the page is neither loading nor showing an
    error. *)
Theorem prediction_on_page_is_for_current_input (p : Page) (r : PredictionResult) :
  reachable p ->
  prediction (appState p) = Some r ->
  let st := appState p in
  firstTriggered (selectedHistoryLength st) (historyInput st) = None
  /\ r = analyzeHistory (map parseFloat (pieces (historyInput st)))
  /\ category r <> NONE
  /\ error st = None
  /\ isLoading st = false.
Proof.
  intros Hr Hp st.
  destruct (reachable_invariant p Hr) as (_ & (Hpred & _ & _) & Htm).
  destruct (Hpred r Hp) as (Hf & -> & He). fold st in Htm |- *.
  split; [exact Hf|]. split; [reflexivity|].
  split; [apply analyzeHistory_never_NONE|]. split; [exact He|].
  unfold timersForLoading in Htm. fold st in Htm.
  destruct (isLoading st); [|reflexivity].
  destruct Htm as (_ & Hn & _). fold st in Hp. congruence.
Qed.

Lemma prediction_on_page_is_for_current_input_witness :
  exists p,
    reactAll [TypeInput (str "1, 1.1, 1.2, 1.9, 1.5, 3"); ClickSubmit; TimerFires 0]
      initialPage = Some p
    /\ prediction (appState p) = Some (resultOf BREAKOUT)
    /\ firstTriggered (selectedHistoryLength (appState p)) (historyInput (appState p))
       = None
    /\ resultOf BREAKOUT
       = analyzeHistory (map parseFloat (pieces (historyInput (appState p))))
    /\ category (resultOf BREAKOUT) <> NONE
    /\ error (appState p) = None
    /\ isLoading (appState p) = false.
Proof.
  eexists. split; [vm_compute; reflexivity|]. split; [reflexivity|].
  eapply (prediction_on_page_is_for_current_input _ (resultOf BREAKOUT)).
  - reached_by [TypeInput (str "1, 1.1, 1.2, 1.9, 1.5, 3"); ClickSubmit; TimerFires 0].
  - reflexivity.
Defined.

(** On every page reached from the initial one, an error on the page is the
    message of the first failure triggered by the input in the box for the
    length chosen, and the page then has no prediction. *)
Theorem error_on_page_is_for_current_input (p : Page) (m : jsstring) :
  reachable p ->
  error (appState p) = Some m ->
  let st := appState p in
  (exists e,
      firstTriggered (selectedHistoryLength st) (historyInput st) = Some e
      /\ m = errorMessage (selectedHistoryLength st) e)
  /\ prediction st = None
  /\ showsError st = true.
Proof.
  intros Hr He st.
  destruct (reachable_invariant p Hr) as (_ & (Hpred & Herr & _) & _).
  fold st in Hpred, Herr, He. destruct (Herr m He) as (e & Hf & ->).
  split; [now exists e|]. split.
  - destruct (prediction st) as [r|] eqn:Ep; [|reflexivity].
    destruct (Hpred r eq_refl) as (_ & _ & Hn). congruence.
  - unfold showsError. rewrite He. now destruct e.
Qed.

Lemma error_on_page_is_for_current_input_witness :
  exists p,
    reactAll [TypeInput (str "1, x, -3, 0, 5, 6"); ClickSubmit; TimerFires 0]
      initialPage = Some p
    /\ error (appState p) = Some notANumberMessage
    /\ (exists e,
          firstTriggered (selectedHistoryLength (appState p))
            (historyInput (appState p)) = Some e
          /\ notANumberMessage = errorMessage (selectedHistoryLength (appState p)) e)
    /\ prediction (appState p) = None
    /\ showsError (appState p) = true.
Proof.
  eexists. split; [vm_compute; reflexivity|]. split; [reflexivity|].
  eapply (error_on_page_is_for_current_input _ notANumberMessage).
  - reached_by [TypeInput (str "1, x, -3, 0, 5, 6"); ClickSubmit; TimerFires 0].
  - reflexivity.
Defined.



(** On every page reached from the initial one, the page is loading exactly
    when one timer of [handlePredict] is pending, and never more than one is:
    an input cannot be submitted twice before the first answer. *)
Theorem one_prediction_pending_while_loading (p : Page) :
  reachable p ->
  length (filter isPredictTimer (pending p))
  = if isLoading (appState p) then 1 else 0.
Proof.
  intros Hr. destruct (reachable_invariant p Hr) as (_ & _ & Htm).
  unfold timersForLoading in Htm.
  destruct (isLoading (appState p)).
  - destruct Htm as ((r0 & -> & _) & _). reflexivity.
  - now rewrite Htm.
Qed.

Lemma one_prediction_pending_while_loading_witness :
  exists p,
    reactAll [TypeInput (str "1,2"); SelectLength 2; TypeInput (str "1,2"); ClickSubmit]
      initialPage = Some p
    /\ react ClickSubmit p = None
    /\ length (filter isPredictTimer (pending p))
       = (if isLoading (appState p) then 1 else 0).
Proof.
  eexists. split; [vm_compute; reflexivity|]. split; [vm_compute; reflexivity|].
  eapply one_prediction_pending_while_loading.
  reached_by [TypeInput (str "1,2"); SelectLength 2; TypeInput (str "1,2"); ClickSubmit].
Defined.

(** On every page reached from the initial one, the feedback buttons are
    offered only for the prediction that the card displays. *)
Theorem feedback_is_for_displayed_prediction (p : Page) :
  reachable p ->
  showsFeedbackSection (appState p) = true ->
  showsPredictionCard (appState p) = true
  /\ lastPredictionForFeedback (appState p) = prediction (appState p).
Proof.
  intros Hr Hs.
  destruct (reachable_invariant p Hr) as (_ & (Hpred & _ & Hfb) & _).
  unfold showsFeedbackSection in Hs. unfold showsPredictionCard.
  destruct (isLoading (appState p)); [discriminate|]. cbn [negb andb] in Hs |- *.
  destruct (showFeedbackOptions (appState p)); [|discriminate].
  destruct (Hfb eq_refl) as [Hn Hl]. split; [|exact Hl].
  destruct (prediction (appState p)) as [r|] eqn:Ep; [|congruence].
  destruct (Hpred r eq_refl) as (_ & -> & _).
  pose proof (analyzeHistory_never_NONE
                (map parseFloat (pieces (historyInput (appState p))))) as Hc.
  now destruct (category (analyzeHistory _)).
Qed.

Lemma feedback_is_for_displayed_prediction_witness :
  exists p,
    reactAll [SelectLength 2; TypeInput (str "3, 7"); ClickSubmit; TimerFires 0]
      initialPage = Some p
    /\ showsFeedbackSection (appState p) = true
    /\ showsPredictionCard (appState p) = true
    /\ lastPredictionForFeedback (appState p) = prediction (appState p).
Proof.
  eexists. split; [vm_compute; reflexivity|]. split; [reflexivity|].
  eapply feedback_is_for_displayed_prediction.
  - reached_by [SelectLength 2; TypeInput (str "3, 7"); ClickSubmit; TimerFires 0].
  - reflexivity.
Defined.

(** ** A click and its answer *)

(** A click on the button followed by its timer is [predict]. *)
Lemma submit_then_timer_is_predict (p : Page) :
  submitDisabled (appState p) = false ->
  reactAll [ClickSubmit; TimerFires (length (pending p))] p
  = Some {| appState := predict (appState p); pending := pending p |}.
Proof.
  intros H. destruct p as [st ts]. cbn [appState pending] in H |- *.
  cbn [reactAll react appState pending]. rewrite H.
  cbn [appState pending].
  rewrite nth_error_app2, Nat.sub_diag by apply le_n. cbn [nth_error fire].
  rewrite firstn_app, Nat.sub_diag, firstn_all, skipn_all2
    by (rewrite length_app; cbn; lia).
  cbn [firstn]. now rewrite !app_nil_r.
Qed.

(** When the input is valid for the length chosen, a click and its answer
    leave the analysis of the input as the prediction: the card and the
    feedback buttons are displayed, no error is, the page is no longer
    loading, and the input and the length are as they were. *)
Theorem predict_displays_analysis_of_valid_input (st : AppState) :
  firstTriggered (selectedHistoryLength st) (historyInput st) = None ->
  let st' := predict st in
  prediction st'
  = Some (analyzeHistory (map parseFloat (pieces (historyInput st))))
  /\ lastPredictionForFeedback st' = prediction st'
  /\ error st' = None
  /\ isLoading st' = false
  /\ showsPredictionCard st' = true
  /\ showsFeedbackSection st' = true
  /\ showsFeedbackMessage st' = false
  /\ historyInput st' = historyInput st
  /\ selectedHistoryLength st' = selectedHistoryLength st.
Proof.
  intros H. cbv zeta. unfold predict.
  rewrite handlePredict_timeout_state, H. cbv zeta.
  unfold showsPredictionCard, showsFeedbackSection, showsFeedbackMessage.
  run_setters.
  pose proof (analyzeHistory_never_NONE
                (map parseFloat (pieces (historyInput st)))) as Hn.
  repeat apply conj; try reflexivity.
  now destruct (category (analyzeHistory _)).
Qed.

Lemma predict_displays_analysis_of_valid_input_witness :
  let st := withInput 3 (str "2.5, 3, 3.5") in
  firstTriggered (selectedHistoryLength st) (historyInput st) = None
  /\ prediction (predict st) = Some (resultOf STABLE)
  /\ lastPredictionForFeedback (predict st) = prediction (predict st)
  /\ error (predict st) = None
  /\ isLoading (predict st) = false
  /\ showsPredictionCard (predict st) = true
  /\ showsFeedbackSection (predict st) = true
  /\ showsFeedbackMessage (predict st) = false
  /\ historyInput (predict st) = historyInput st
  /\ selectedHistoryLength (predict st) = selectedHistoryLength st.
Proof.
  cbv zeta.
  assert (H : firstTriggered (selectedHistoryLength (withInput 3 (str "2.5, 3, 3.5")))
                (historyInput (withInput 3 (str "2.5, 3, 3.5"))) = None)
    by (vm_compute; reflexivity).
  split; [exact H|].
  exact (predict_displays_analysis_of_valid_input (withInput 3 (str "2.5, 3, 3.5")) H).
Defined.

Lemma feedback_needs_section (q : Page) (wasCorrect : bool) :
  showsFeedbackSection (appState q) = false ->
  react (ClickFeedback wasCorrect) q = None.
Proof.
  intros H. unfold react. now rewrite H.
Qed.

(** Feedback is given once for a prediction: after a click on a feedback
    button the message is displayed, the buttons are gone, so that a second
    click is not possible, and the prediction stays. *)
Theorem feedback_is_given_once (p p' : Page) (wasCorrect : bool) :
  react (ClickFeedback wasCorrect) p = Some p' ->
  showsFeedbackMessage (appState p') = true
  /\ showsFeedbackSection (appState p') = false
  /\ prediction (appState p') = prediction (appState p)
  /\ (forall again, react (ClickFeedback again) p' = None).
Proof.
  cbn [react]. destruct (showsFeedbackSection (appState p)); [|discriminate].
  intros [= <-].
  assert (Hs : showsFeedbackSection (snd (handleFeedback wasCorrect (appState p)))
               = false).
  { unfold showsFeedbackSection. run_setters.
    now rewrite andb_false_r. }
  split; [now destruct wasCorrect|]. split; [exact Hs|]. split; [reflexivity|].
  intros again. apply feedback_needs_section. exact Hs.
Qed.

Lemma feedback_is_given_once_witness :
  exists p p',
    reactAll [SelectLength 2; TypeInput (str "3, 7"); ClickSubmit; TimerFires 0]
      initialPage = Some p
    /\ react (ClickFeedback false) p = Some p'
    /\ showsFeedbackMessage (appState p') = true
    /\ showsFeedbackSection (appState p') = false
    /\ prediction (appState p') = prediction (appState p)
    /\ (forall again, react (ClickFeedback again) p' = None).
Proof.
  eexists. eexists. split; [vm_compute; reflexivity|].
  split; [vm_compute; reflexivity|].
  eapply (feedback_is_given_once _ _ false). vm_compute. reflexivity.
Defined.
